(** * Sasakur0/translate: the client's task orchestration, verified

    The repository's executable code is the Vue component
    [src/font/video-ai-platform/src/App.vue] (and a second version of the
    same component, [src/unnamed/part_000]).  This development embeds the
    script part of both versions: [upsertTask], [pollGenerateTask],
    [handleCancel] and [handleGenerate].

    - JavaScript values are the JSON scalars plus [undefined]; numbers are
      IEEE-754 binary64, i.e. Rocq's primitive floats.
    - Built-ins whose implementation belongs to the JavaScript engine
      ([String.prototype.toUpperCase], [Number] on strings, number
      formatting) are the fields of the class [Runtime]; every theorem
      holds for every runtime.
    - The component's refs, the trace of its observable effects and the
      backend's answers are threaded by a reader/state/exception monad.
    - The backend itself (task manager, media pipeline, signed-URL codec)
      is not among the sources; it appears here only as the oracle that
      answers the component's requests. *)

From Stdlib Require Import Floats Uint63 String Ascii DecimalString List.
From Stdlib Require Import ZArith NArith Bool Lia.
Import ListNotations.
Local Open Scope string_scope.
Local Open Scope list_scope.

Set Implicit Arguments.

(* ================================================================= *)
(** ** JavaScript values *)

Inductive value : Type :=
| VUndefined
| VNull
| VBool (b : bool)
| VNum (x : float)
| VStr (s : string).

(** Engine-provided built-ins. *)
Class Runtime : Type := {
  (** [String.prototype.toUpperCase] *)
  toUpperCase : string -> string;
  (** [Number(s)] for a string [s] (StringToNumber) *)
  StringToNumber : string -> float;
  (** [String(x)] for a number [x] (Number::toString) *)
  NumberToString : float -> string;
  (** [Number.prototype.toFixed] *)
  toFixed : float -> N -> string;
  (** the message of the [TypeError] raised when [o.name(...)] is called and
      [o.name] is not a function *)
  notAFunction : string -> string;
  (** the empty string has no character to map *)
  toUpperCase_empty : toUpperCase "" = ""
}.

(** ToBoolean: [undefined], [null], [false], [+0], [-0], [NaN] and [''] are
    falsy. *)
Definition truthy (v : value) : bool :=
  match v with
  | VUndefined | VNull => false
  | VBool b => b
  | VNum x => negb (PrimFloat.eqb x 0 || PrimFloat.is_nan x)
  | VStr s => negb (s =? "")
  end.

(** [a || b] *)
Definition or_else (a b : value) : value := if truthy a then a else b.

(** [a ?? b] *)
Definition nullish (a b : value) : value :=
  match a with
  | VUndefined | VNull => b
  | _ => a
  end.

(** [a === b] *)
Definition strict_eq (a b : value) : bool :=
  match a, b with
  | VUndefined, VUndefined => true
  | VNull, VNull => true
  | VBool x, VBool y => Bool.eqb x y
  | VNum x, VNum y => PrimFloat.eqb x y
  | VStr x, VStr y => (x =? y)
  | _, _ => false
  end.

(** [Number(v)] *)
Definition Number `{Runtime} (v : value) : float :=
  match v with
  | VUndefined => nan
  | VNull => 0%float
  | VBool b => if b then 1%float else 0%float
  | VNum x => x
  | VStr s => StringToNumber s
  end.

(** [String(v)], as applied by [new Error(v)] to its argument. *)
Definition ToString `{Runtime} (v : value) : string :=
  match v with
  | VUndefined => "undefined"
  | VNull => "null"
  | VBool b => if b then "true" else "false"
  | VNum x => NumberToString x
  | VStr s => s
  end.

(** [Math.min(a, b)] and [Math.max(a, b)]: [NaN] is contagious; [-0] is
    smaller than [+0]. *)
Definition is_neg_zero (x : float) : bool :=
  PrimFloat.eqb x 0 && PrimFloat.get_sign x.

Definition Math_min (a b : float) : float :=
  if PrimFloat.is_nan a || PrimFloat.is_nan b then nan
  else if PrimFloat.ltb b a then b
  else if PrimFloat.eqb a 0 && is_neg_zero b then b
  else a.

Definition Math_max (a b : float) : float :=
  if PrimFloat.is_nan a || PrimFloat.is_nan b then nan
  else if PrimFloat.ltb a b then b
  else if is_neg_zero a && PrimFloat.eqb b 0 then b
  else a.

(* ================================================================= *)
(** ** Data exchanged with the backend *)

(** The body of a backend answer, read through optional chaining: a key
    that is missing (or a body that is [null] or not an object) reads as
    [undefined]. *)
Module Resp.
Record t : Type := make {
  taskId : value;
  status : value;
  progress : value;
  stage : value;
  detail : value;
  content : value;
  processTime : value;
  code : value
}.
Definition empty : t :=
  make VUndefined VUndefined VUndefined VUndefined
       VUndefined VUndefined VUndefined VUndefined.
End Resp.

(** [projectData], the reactive form model. *)
Record project_options : Type := {
  enableOCR : bool;
  enhanceAudio : bool
}.

Record project_data : Type := {
  url : string;
  prompt : string;
  title : string;
  type : string;
  engine : string;
  timeRange : float * float;
  options : project_options
}.

(** [{ video_url: projectData.url, params: { ...projectData, timestamp } }] *)
Record params_t : Type := {
  spread_projectData : project_data;
  timestamp : float
}.

Record payload : Type := {
  video_url : string;
  params : params_t
}.

(** The three requests of the component; the URL is determined by the
    constructor and the task id it interpolates. *)
Inductive request : Type :=
| PostGenerate (body : payload) (timeout : N)
| GetTask (taskId : value) (timeout : N)
| PostCancel (taskId : value) (timeout : N).

(** What can be thrown and caught.  [AxiosError] carries what the handlers
    read from it: [err.response?.data?.detail] and [err.message]. *)
Inductive exn : Type :=
| AxiosError (detail : value) (message : string)
| Error (message : string)
| TypeError (message : string).

Definition response_detail (e : exn) : value :=
  match e with
  | AxiosError d _ => d
  | _ => VUndefined
  end.

Definition message (e : exn) : value :=
  match e with
  | AxiosError _ m | Error m | TypeError m => VStr m
  end.

Inductive http_result : Type :=
| HttpOk (data : Resp.t)
| HttpErr (detail : value) (msg : string).

(* ================================================================= *)
(** ** Component state *)

Module Task.
Record t : Type := make {
  taskId : value;
  progress : value;
  stage : value;
  status : value
}.
End Task.

(** An object literal passed to [upsertTask]; [None] is an absent key. *)
Module Patch.
Record t : Type := make {
  taskId : option value;
  progress : option value;
  stage : option value;
  status : option value
}.
(** [patch.k] *)
Definition get (k : option value) : value :=
  match k with
  | Some v => v
  | None => VUndefined
  end.
End Patch.

Record result : Type := {
  res_code : value;
  res_processTime : value;
  res_content : value
}.

Record state : Type := {
  loading : bool;
  loadingPercent : float;
  loadingStatusText : value;
  generatedResult : option result;
  taskList : list Task.t;
  currentTaskId : value;
  projectData : project_data
}.

Inductive message_kind : Type := MsgSuccess | MsgWarning | MsgError.

Inductive event : Type :=
| EHttp (r : request)
| ESleep (ms : N)
| EMessage (k : message_kind) (text : value)
| EConsoleLog (p : payload)
| EConsoleError (e : exn).

(** The backend and the clocks, as oracles indexed by the number of earlier
    consultations. *)
Record backend : Type := {
  respond : nat -> request -> http_result;
  Date_getTime : nat -> float;
  performance_now : nat -> float
}.

Record world : Type := {
  st : state;
  trace : list event;
  n_http : nat;
  n_clock : nat
}.

(* ================================================================= *)
(** ** The effect monad *)

Inductive outcome (A : Type) : Type :=
| Ret (a : A)
| Throw (e : exn).
Arguments Ret {A} a.
Arguments Throw {A} e.

Definition M (A : Type) : Type := backend -> world -> outcome A * world.

Definition ret {A} (a : A) : M A := fun _ w => (Ret a, w).

Definition throw {A} (e : exn) : M A := fun _ w => (Throw e, w).

Definition bind {A B} (m : M A) (k : A -> M B) : M B :=
  fun env w =>
    match m env w with
    | (Ret a, w') => k a env w'
    | (Throw e, w') => (Throw e, w')
    end.

(** [try { body } catch (err) { handler }] *)
Definition try_catch {A} (body : M A) (handler : exn -> M A) : M A :=
  fun env w =>
    match body env w with
    | (Ret a, w') => (Ret a, w')
    | (Throw e, w') => handler e env w'
    end.

(** [{ body } finally { final }], for a [final] block that completes
    normally. *)
Definition finally {A} (body : M A) (final : M unit) : M A :=
  fun env w =>
    match body env w with
    | (r, w') =>
        match final env w' with
        | (Ret _, w'') => (r, w'')
        | (Throw e, w'') => (Throw e, w'')
        end
    end.

Declare Scope js_scope.
Delimit Scope js_scope with js.
Notation "x <- m ;; k" := (bind m (fun x => k))
  (at level 100, m at next level, right associativity) : js_scope.
Notation "m ;;; k" := (bind m (fun _ => k))
  (at level 100, right associativity) : js_scope.
Local Open Scope js_scope.

Definition get_state : M state := fun _ w => (Ret (st w), w).

Definition modify (f : state -> state) : M unit :=
  fun _ w =>
    (Ret tt, {| st := f (st w); trace := trace w;
                n_http := n_http w; n_clock := n_clock w |}).

Definition emit (e : event) : M unit :=
  fun _ w =>
    (Ret tt, {| st := st w; trace := trace w ++ [e];
                n_http := n_http w; n_clock := n_clock w |}).

(** [await axios.get/post(...)]: the request is observed, the backend's
    next answer is consumed, a rejection is thrown. *)
Definition axios (r : request) : M Resp.t :=
  fun env w =>
    let w' := {| st := st w; trace := trace w ++ [EHttp r];
                 n_http := S (n_http w); n_clock := n_clock w |} in
    match respond env (n_http w) r with
    | HttpOk data => (Ret data, w')
    | HttpErr d m => (Throw (AxiosError d m), w')
    end.

Definition read_clock (clock : backend -> nat -> float) : M float :=
  fun env w =>
    (Ret (clock env (n_clock w)),
     {| st := st w; trace := trace w;
        n_http := n_http w; n_clock := S (n_clock w) |}).

(** [await sleep(ms)] *)
Definition sleep (ms : N) : M unit := emit (ESleep ms).

Definition ElMessage (k : message_kind) (text : value) : M unit :=
  emit (EMessage k text).

(** Assignments to the refs. *)
Definition set_loading (b : bool) (s : state) : state :=
  {| loading := b; loadingPercent := loadingPercent s;
     loadingStatusText := loadingStatusText s;
     generatedResult := generatedResult s; taskList := taskList s;
     currentTaskId := currentTaskId s; projectData := projectData s |}.

Definition set_loadingPercent (x : float) (s : state) : state :=
  {| loading := loading s; loadingPercent := x;
     loadingStatusText := loadingStatusText s;
     generatedResult := generatedResult s; taskList := taskList s;
     currentTaskId := currentTaskId s; projectData := projectData s |}.

Definition set_loadingStatusText (v : value) (s : state) : state :=
  {| loading := loading s; loadingPercent := loadingPercent s;
     loadingStatusText := v;
     generatedResult := generatedResult s; taskList := taskList s;
     currentTaskId := currentTaskId s; projectData := projectData s |}.

Definition set_generatedResult (r : option result) (s : state) : state :=
  {| loading := loading s; loadingPercent := loadingPercent s;
     loadingStatusText := loadingStatusText s;
     generatedResult := r; taskList := taskList s;
     currentTaskId := currentTaskId s; projectData := projectData s |}.

Definition set_taskList (l : list Task.t) (s : state) : state :=
  {| loading := loading s; loadingPercent := loadingPercent s;
     loadingStatusText := loadingStatusText s;
     generatedResult := generatedResult s; taskList := l;
     currentTaskId := currentTaskId s; projectData := projectData s |}.

Definition set_currentTaskId (v : value) (s : state) : state :=
  {| loading := loading s; loadingPercent := loadingPercent s;
     loadingStatusText := loadingStatusText s;
     generatedResult := generatedResult s; taskList := taskList s;
     currentTaskId := v; projectData := projectData s |}.

(** [Array.prototype.findIndex]; [None] stands for [-1]. *)
Fixpoint findIndex {A} (p : A -> bool) (l : list A) : option nat :=
  match l with
  | [] => None
  | x :: l' => if p x then Some 0 else option_map S (findIndex p l')
  end.

(** [l[idx] = v] for an index within the array. *)
Fixpoint assign_at {A} (idx : nat) (v : A) (l : list A) : list A :=
  match l, idx with
  | [], _ => []
  | _ :: l', 0 => v :: l'
  | x :: l', S i => x :: assign_at i v l'
  end.

(** [{ ...old, ...patch }] on the keys of a task entry. *)
Definition spread (old : Task.t) (patch : Patch.t) : Task.t :=
  let over (k : option value) (o : value) :=
    match k with Some v => v | None => o end in
  Task.make (over (Patch.taskId patch) (Task.taskId old))
            (over (Patch.progress patch) (Task.progress old))
            (over (Patch.stage patch) (Task.stage old))
            (over (Patch.status patch) (Task.status old)).

(** [(v).toUpperCase()]: a method of strings only. *)
Definition call_toUpperCase `{Runtime} (v : value) : M string :=
  match v with
  | VStr s => ret (toUpperCase s)
  | _ => throw (TypeError (notAFunction "toUpperCase"))
  end.

(* ================================================================= *)
(** ** The component: [src/font/video-ai-platform/src/App.vue] *)

Module AppVue.

(** [upsertTask], on the array held by [taskList]. *)
Definition upsertTask_on (patch : Patch.t) (l : list Task.t) : list Task.t :=
  let idx :=
    findIndex
      (fun item => strict_eq (Task.taskId item) (Patch.get (Patch.taskId patch)))
      l in
  match idx with
  | None =>
      Task.make (Patch.get (Patch.taskId patch))
                (nullish (Patch.get (Patch.progress patch)) (VNum 0))
                (nullish (Patch.get (Patch.stage patch)) (VStr "任务创建中"))
                (nullish (Patch.get (Patch.status patch)) (VStr "PENDING"))
      :: l
  | Some i =>
      match nth_error l i with
      | Some old => assign_at i (spread old patch) l
      | None => l (* not reached: [findIndex] returns an index of [l] *)
      end
  end.

Definition upsertTask (patch : Patch.t) : M unit :=
  modify (fun s => set_taskList (upsertTask_on patch (taskList s)) s).

(** [{ taskId, progress, stage, status }] *)
Definition patch_of (taskId progress stage status : value) : Patch.t :=
  Patch.make (Some taskId) (Some progress) (Some stage) (Some status).

Definition maxPollTimes : nat := 600.

(** How one turn of the [for] loop ends. *)
Inductive turn : Type :=
| Continue
| Return (data : Resp.t).

(** The body of the loop of [pollGenerateTask]. *)
Definition poll_body `{Runtime} (taskId : value) : M turn :=
  data <- axios (GetTask taskId 15000) ;;
  status <- call_toUpperCase (or_else (Resp.status data) (VStr "")) ;;
  let progress := Number (nullish (Resp.progress data) (VNum 0)) in
  let stage := or_else (Resp.stage data) (VStr "") in
  upsertTask (patch_of taskId (VNum progress) stage (VStr status)) ;;;
  modify (set_loadingPercent (Math_max 0 (Math_min 100 progress))) ;;;
  modify (set_loadingStatusText (or_else stage (VStr "处理中..."))) ;;;
  if status =? "PENDING" then
    sleep 2000 ;;; ret Continue
  else if status =? "RUNNING" then
    sleep 2000 ;;; ret Continue
  else if status =? "SUCCESS" then
    modify (set_loadingPercent 100) ;;;
    modify (set_loadingStatusText (VStr "处理完成")) ;;;
    upsertTask (patch_of taskId (VNum 100) (VStr "处理完成") (VStr status)) ;;;
    ret (Return data)
  else if status =? "FAILED" then
    upsertTask (patch_of taskId (VNum 100) (VStr "处理失败") (VStr status)) ;;;
    throw (Error (ToString (or_else (Resp.detail data) (VStr "任务执行失败"))))
  else if status =? "CANCELED" then
    upsertTask (patch_of taskId (VNum 100) (VStr "任务已取消") (VStr status)) ;;;
    throw (Error (ToString (or_else (Resp.detail data) (VStr "任务已取消"))))
  else
    sleep 2000 ;;; ret Continue.

(** [for (let i = 0; i < maxPollTimes; i += 1) { ... }] followed by the
    [throw] after the loop; [remaining] is [maxPollTimes - i]. *)
Fixpoint poll_for `{Runtime} (remaining : nat) (taskId : value) : M Resp.t :=
  match remaining with
  | O => throw (Error "任务轮询超时，请稍后重试")
  | S k =>
      t <- poll_body taskId ;;
      match t with
      | Continue => poll_for k taskId
      | Return data => ret data
      end
  end.

Definition pollGenerateTask `{Runtime} (taskId : value) : M Resp.t :=
  poll_for maxPollTimes taskId.

Definition handleCancel : M unit :=
  s <- get_state ;;
  if negb (truthy (currentTaskId s)) then ret tt
  else
    try_catch
      (axios (PostCancel (currentTaskId s) 10000) ;;;
       ElMessage MsgSuccess (VStr "已发送取消请求"))
      (fun err =>
         ElMessage MsgError
           (or_else (or_else (response_detail err) (message err))
                    (VStr "取消失败"))).

Definition handleGenerate `{Runtime} : M unit :=
  s <- get_state ;;
  if negb (truthy (VStr (url (projectData s)))) then
    ElMessage MsgWarning (VStr "请先输入视频链接")
  else if negb (truthy (VStr (prompt (projectData s)))) then
    ElMessage MsgWarning (VStr "请先输入 prompt")
  else
    modify (set_loading true) ;;;
    modify (set_loadingPercent 0) ;;;
    modify (set_generatedResult None) ;;;
    now <- read_clock Date_getTime ;;
    let payload :=
      {| video_url := url (projectData s);
         params := {| spread_projectData := projectData s;
                      timestamp := now |} |} in
    emit (EConsoleLog payload) ;;;
    startTime <- read_clock performance_now ;;
    finally
      (try_catch
         (modify (set_loadingStatusText (VStr "任务创建中...")) ;;;
          createRes <- axios (PostGenerate payload 30000) ;;
          let taskId := Resp.taskId createRes in
          if negb (truthy taskId) then
            throw (Error "后端未返回 taskId")
          else
            modify (set_currentTaskId taskId) ;;;
            upsertTask (patch_of taskId (VNum 0) (VStr "任务创建成功")
                                 (VStr "PENDING")) ;;;
            result <- pollGenerateTask taskId ;;
            finish <- read_clock performance_now ;;
            let duration := ((finish - startTime) / 1000)%float in
            modify (set_generatedResult (Some
              {| res_code := nullish (Resp.code result) (VNum 200);
                 res_processTime :=
                   nullish (Resp.processTime result)
                           (VNum (StringToNumber (toFixed duration 1)));
                 res_content := nullish (Resp.content result) (VStr "") |})))
         (fun err =>
            modify (set_loadingStatusText (VStr "请求失败")) ;;;
            ElMessage MsgError
              (or_else (or_else (response_detail err) (message err))
                       (VStr "请求出错")) ;;;
            emit (EConsoleError err)))
      (modify (set_loading false) ;;;
       modify (set_currentTaskId (VStr ""))).

End AppVue.

(* ================================================================= *)
(** ** The second version of the component: [src/unnamed/part_000] *)

Module Part000.

(** [upsertTask], on the array held by [taskList]. *)
Definition upsertTask_on (patch : Patch.t) (l : list Task.t) : list Task.t :=
  let idx :=
    findIndex
      (fun item => strict_eq (Task.taskId item) (Patch.get (Patch.taskId patch)))
      l in
  match idx with
  | None =>
      Task.make (Patch.get (Patch.taskId patch))
                (nullish (Patch.get (Patch.progress patch)) (VNum 0))
                (nullish (Patch.get (Patch.stage patch)) (VStr "任务创建中"))
                (nullish (Patch.get (Patch.status patch)) (VStr "PENDING"))
      :: l
  | Some i =>
      match nth_error l i with
      | Some old => assign_at i (spread old patch) l
      | None => l (* not reached: [findIndex] returns an index of [l] *)
      end
  end.

Definition upsertTask (patch : Patch.t) : M unit :=
  modify (fun s => set_taskList (upsertTask_on patch (taskList s)) s).

(** [{ taskId, progress, stage, status }] *)
Definition patch_of (taskId progress stage status : value) : Patch.t :=
  Patch.make (Some taskId) (Some progress) (Some stage) (Some status).

Definition maxPollTimes : nat := 600.

(** How one turn of the [for] loop ends. *)
Inductive turn : Type :=
| Continue
| Return (data : Resp.t).

(** The body of the loop of [pollGenerateTask]. *)
Definition poll_body `{Runtime} (taskId : value) : M turn :=
  data <- axios (GetTask taskId 15000) ;;
  status <- call_toUpperCase (or_else (Resp.status data) (VStr "")) ;;
  let progress := Number (nullish (Resp.progress data) (VNum 0)) in
  let stage := or_else (Resp.stage data) (VStr "") in
  upsertTask (patch_of taskId (VNum progress) stage (VStr status)) ;;;
  modify (set_loadingPercent (Math_max 0 (Math_min 100 progress))) ;;;
  modify (set_loadingStatusText (or_else stage (VStr "处理中..."))) ;;;
  if status =? "PENDING" then
    sleep 2000 ;;; ret Continue
  else if status =? "RUNNING" then
    sleep 2000 ;;; ret Continue
  else if status =? "SUCCESS" then
    modify (set_loadingPercent 100) ;;;
    modify (set_loadingStatusText (VStr "处理完成")) ;;;
    upsertTask (patch_of taskId (VNum 100) (VStr "处理完成") (VStr status)) ;;;
    ret (Return data)
  else if status =? "FAILED" then
    upsertTask (patch_of taskId (VNum 100) (VStr "处理失败") (VStr status)) ;;;
    throw (Error (ToString (or_else (Resp.detail data) (VStr "任务执行失败"))))
  else if status =? "CANCELED" then
    upsertTask (patch_of taskId (VNum 100) (VStr "任务已取消") (VStr status)) ;;;
    throw (Error (ToString (or_else (Resp.detail data) (VStr "任务已取消"))))
  else
    sleep 2000 ;;; ret Continue.

(** [for (let i = 0; i < maxPollTimes; i += 1) { ... }] followed by the
    [throw] after the loop; [remaining] is [maxPollTimes - i]. *)
Fixpoint poll_for `{Runtime} (remaining : nat) (taskId : value) : M Resp.t :=
  match remaining with
  | O => throw (Error "任务轮询超时，请稍后重试")
  | S k =>
      t <- poll_body taskId ;;
      match t with
      | Continue => poll_for k taskId
      | Return data => ret data
      end
  end.

Definition pollGenerateTask `{Runtime} (taskId : value) : M Resp.t :=
  poll_for maxPollTimes taskId.

Definition handleCancel : M unit :=
  s <- get_state ;;
  if negb (truthy (currentTaskId s)) then ret tt
  else
    try_catch
      (axios (PostCancel (currentTaskId s) 10000) ;;;
       ElMessage MsgSuccess (VStr "已发送取消请求"))
      (fun err =>
         ElMessage MsgError
           (or_else (or_else (response_detail err) (message err))
                    (VStr "取消失败"))).

Definition handleGenerate `{Runtime} : M unit :=
  s <- get_state ;;
  if negb (truthy (VStr (url (projectData s)))) then
    ElMessage MsgWarning (VStr "请先输入视频链接")
  else if negb (truthy (VStr (prompt (projectData s)))) then
    ElMessage MsgWarning (VStr "请先输入 prompt")
  else
    modify (set_loading true) ;;;
    modify (set_loadingPercent 0) ;;;
    modify (set_generatedResult None) ;;;
    now <- read_clock Date_getTime ;;
    let payload :=
      {| video_url := url (projectData s);
         params := {| spread_projectData := projectData s;
                      timestamp := now |} |} in
    emit (EConsoleLog payload) ;;;
    startTime <- read_clock performance_now ;;
    finally
      (try_catch
         (modify (set_loadingStatusText (VStr "任务创建中...")) ;;;
          createRes <- axios (PostGenerate payload 30000) ;;
          let taskId := Resp.taskId createRes in
          if negb (truthy taskId) then
            throw (Error "后端未返回 taskId")
          else
            modify (set_currentTaskId taskId) ;;;
            upsertTask (patch_of taskId (VNum 0) (VStr "任务创建成功")
                                 (VStr "PENDING")) ;;;
            result <- pollGenerateTask taskId ;;
            finish <- read_clock performance_now ;;
            let duration := ((finish - startTime) / 1000)%float in
            modify (set_generatedResult (Some
              {| res_code := nullish (Resp.code result) (VNum 200);
                 res_processTime :=
                   nullish (Resp.processTime result)
                           (VNum (StringToNumber (toFixed duration 1)));
                 res_content := nullish (Resp.content result) (VStr "") |})))
         (fun err =>
            modify (set_loadingStatusText (VStr "请求失败")) ;;;
            ElMessage MsgError
              (or_else (or_else (response_detail err) (message err))
                       (VStr "请求出错")) ;;;
            emit (EConsoleError err)))
      (modify (set_loading false) ;;;
       modify (set_currentTaskId (VStr ""))).

End Part000.

(* ================================================================= *)
(** ** Predicates used by the statements *)

(** At most one entry of the task list per task id, ids being compared the
    way [upsertTask] compares them ([===]). *)
Definition unique_ids (l : list Task.t) : Prop :=
  forall i j a b,
    nth_error l i = Some a -> nth_error l j = Some b ->
    strict_eq (Task.taskId a) (Task.taskId b) = true -> i = j.

(** The entry [upsertTask] prepends for a patch whose id is not listed. *)
Definition fresh_entry (patch : Patch.t) : Task.t :=
  Task.make (Patch.get (Patch.taskId patch))
            (nullish (Patch.get (Patch.progress patch)) (VNum 0))
            (nullish (Patch.get (Patch.stage patch)) (VStr "任务创建中"))
            (nullish (Patch.get (Patch.status patch)) (VStr "PENDING")).

(** The status the polling loop compares:
    [(data?.status || '').toUpperCase()], when that call is defined. *)
Definition status_of `{Runtime} (data : Resp.t) : option string :=
  match or_else (Resp.status data) (VStr "") with
  | VStr s => Some (toUpperCase s)
  | _ => None
  end.

(** The request of one poll and the effects of one waiting turn. *)
Definition poll_request (taskId : value) : request := GetTask taskId 15000.

Definition waiting_turn (taskId : value) : list event :=
  [EHttp (poll_request taskId); ESleep 2000].

(** An answer after which the loop goes on to its next turn. *)
Definition non_terminal `{Runtime} (data : Resp.t) : Prop :=
  exists s, status_of data = Some s /\
            s <> "SUCCESS" /\ s <> "FAILED" /\ s <> "CANCELED".

(** The answers to the [k] polls issued from request number [n] on all
    keep the loop waiting. *)
Definition keeps_waiting `{Runtime} (env : backend) (taskId : value)
           (n k : nat) : Prop :=
  forall i, i < k ->
    exists d, respond env (n + i) (poll_request taskId) = HttpOk d /\
              non_terminal d.

(** The body [handleGenerate] posts, given the form and the time read. *)
Definition payload_of (pd : project_data) (now : float) : payload :=
  {| video_url := url pd;
     params := {| spread_projectData := pd; timestamp := now |} |}.

Definition create_request (pd : project_data) (now : float) : request :=
  PostGenerate (payload_of pd now) 30000.

(** [Number(duration.toFixed(1))] for
    [duration = (finish - start) / 1000]. *)
Definition measured_duration `{Runtime} (start finish : float) : value :=
  VNum (StringToNumber (toFixed ((finish - start) / 1000)%float 1)).

(** Milliseconds slept along a trace, and requests issued along it. *)
Fixpoint slept (t : list event) : N :=
  match t with
  | [] => 0
  | ESleep ms :: t' => ms + slept t'
  | _ :: t' => slept t'
  end.

Fixpoint requests (t : list event) : list request :=
  match t with
  | [] => []
  | EHttp r :: t' => r :: requests t'
  | _ :: t' => requests t'
  end.

(* ================================================================= *)
(** ** A runtime for the closed examples

    The theorems below hold for every [Runtime].  The closed examples need
    one to compute with.  This one agrees with ECMAScript on what the
    examples feed it: [toUpperCase] on ASCII strings, [Number] on decimal
    numerals [-ddd.ddd] of at most 15 significant digits, [toFixed] on
    numbers below [1e21], and printing of integers below [2^53] and of
    short dyadic fractions. *)

Module ExampleRuntime.

Definition upper_ascii (c : ascii) : ascii :=
  let n := nat_of_ascii c in
  if (97 <=? n)%nat && (n <=? 122)%nat then ascii_of_nat (n - 32) else c.

Fixpoint upper (s : string) : string :=
  match s with
  | EmptyString => EmptyString
  | String c s' => String (upper_ascii c) (upper s')
  end.

Definition digits (n : N) : string := NilZero.string_of_uint (N.to_uint n).

Fixpoint zeros (k : nat) : string :=
  match k with
  | O => ""
  | S k' => String "0" (zeros k')
  end.

Definition of_N (n : N) : float := PrimFloat.of_uint63 (Uint63.of_Z (Z.of_N n)).

(** [a / 2^b] rounded to [d] decimals, ties upwards: the digits before
    and after the point. *)
Definition fixed_parts (a b d : N) : string * string :=
  let n := ((2 * a * 10 ^ d + 2 ^ b) / (2 * 2 ^ b))%N in
  let s := digits n in
  let s := (zeros (S (N.to_nat d) - String.length s) ++ s)%string in
  let cut := (String.length s - N.to_nat d)%nat in
  (substring 0 cut s, substring cut (N.to_nat d) s).

Definition join (neg : bool) (parts : string * string) : string :=
  ((if neg then "-" else "") ++ fst parts ++
   (if (snd parts =? "")%string then "" else "." ++ snd parts))%string.

(** Trailing zeros of a fraction are not printed. *)
Fixpoint strip (s : string) : string :=
  match s with
  | EmptyString => EmptyString
  | String c s' =>
      match strip s' with
      | EmptyString => if Ascii.eqb c "0" then EmptyString
                       else String c EmptyString
      | r => String c r
      end
  end.

(** The exact decimal expansion of [x]: what ECMAScript prints for integers
    below [2^53] and for dyadic fractions with few digits, such as [2.5]. *)
Definition number_to_string (x : float) : string :=
  match Prim2SF x with
  | S754_nan => "NaN"
  | S754_infinity s => if s then "-Infinity" else "Infinity"
  | S754_zero _ => "0"
  | S754_finite s m e =>
      if (0 <=? e)%Z then join s (digits (Npos m * 2 ^ Z.to_N e), "")
      else
        let parts := fixed_parts (Npos m) (Z.to_N (- e)) (Z.to_N (- e)) in
        join s (fst parts, strip (snd parts))
  end.

(** [x.toFixed(d)] for [|x| < 1e21]. *)
Definition to_fixed (x : float) (d : N) : string :=
  match Prim2SF x with
  | S754_zero _ => join false (fixed_parts 0 0 d)
  | S754_finite s m e =>
      if (0 <=? e)%Z then join s (fixed_parts (Npos m * 2 ^ Z.to_N e) 0 d)
      else join s (fixed_parts (Npos m) (Z.to_N (- e)) d)
  | _ => number_to_string x
  end.

Definition unsigned_to_number (s : string) : float :=
  let i := match index 0 "." s with Some i => i | None => String.length s end in
  let whole := substring 0 i s in
  let frac := substring (S i) (String.length s - S i) s in
  match NilEmpty.uint_of_string (whole ++ frac)%string with
  | Some u =>
      let n := N.of_uint u in
      if (n <? 2 ^ 53)%N && (String.length frac <=? 22)%nat then
        (of_N n / of_N (10 ^ N.of_nat (String.length frac)))%float
      else nan
  | None => nan
  end.

Definition string_to_number (s : string) : float :=
  match s with
  | String "-" s' => (- unsigned_to_number s')%float
  | _ => unsigned_to_number s
  end.

Definition not_a_function (name : string) : string :=
  (name ++ " is not a function")%string.

End ExampleRuntime.

Definition example_runtime : Runtime := {|
  toUpperCase := ExampleRuntime.upper;
  StringToNumber := ExampleRuntime.string_to_number;
  NumberToString := ExampleRuntime.number_to_string;
  toFixed := ExampleRuntime.to_fixed;
  notAFunction := ExampleRuntime.not_a_function;
  toUpperCase_empty := eq_refl
|}.

(* ================================================================= *)
(** ** The component as it starts, and backends for the closed examples *)

(** The initial values of the refs and of [projectData]. *)
Definition initial_projectData : project_data :=
  {| url := ""; prompt := ""; title := ""; type := "summary";
     engine := "local"; timeRange := (0%float, 120%float);
     options := {| enableOCR := false; enhanceAudio := true |} |}.

Definition initial_state : state :=
  {| loading := false; loadingPercent := 0%float;
     loadingStatusText := VStr "初始化连接...";
     generatedResult := None; taskList := []; currentTaskId := VStr "";
     projectData := initial_projectData |}.

Definition initial_world : world :=
  {| st := initial_state; trace := []; n_http := 0; n_clock := 0 |}.

(** The form once a link and a prompt are typed in. *)
Definition filled_world : world :=
  {| st := {| loading := false; loadingPercent := 0%float;
              loadingStatusText := VStr "初始化连接...";
              generatedResult := None; taskList := [];
              currentTaskId := VStr "";
              projectData :=
                {| url := "https://example.com/v.mp4"; prompt := "summarize";
                   title := ""; type := "summary"; engine := "local";
                   timeRange := (0%float, 120%float);
                   options := {| enableOCR := false;
                                 enhanceAudio := true |} |} |};
     trace := []; n_http := 0; n_clock := 0 |}.

Definition answer (status progress detail content : value) : Resp.t :=
  Resp.make VUndefined status progress VUndefined detail content
            VUndefined VUndefined.

(** A backend whose task stays [RUNNING] for ever; its clocks stand still. *)
Definition always_running : backend :=
  {| respond := fun _ _ =>
       HttpOk (answer (VStr "RUNNING") (VNum 150) VUndefined VUndefined);
     Date_getTime := fun _ => 0%float;
     performance_now := fun _ => 0%float |}.

(** A backend that creates task [t1] and answers the requests numbered
    below [n] with [waiting], the later ones with [final]; its performance
    clock advances by 2.5 seconds per reading. *)
Definition scripted (n : nat) (waiting final : Resp.t) : backend :=
  {| respond := fun i r =>
       match r with
       | PostGenerate _ _ =>
           HttpOk (Resp.make (VStr "t1") VUndefined VUndefined VUndefined
                             VUndefined VUndefined VUndefined VUndefined)
       | GetTask _ _ => HttpOk (if (i <? n)%nat then waiting else final)
       | PostCancel _ _ => HttpOk Resp.empty
       end;
     Date_getTime := fun _ => 1700000000000%float;
     performance_now := fun i => (1000 + 2500 * ExampleRuntime.of_N (N.of_nat i))%float |}.

(* ================================================================= *)
(** ** The rest of the component's script: the form and the editor *)

Definition set_projectData (pd : project_data) (s : state) : state :=
  {| loading := loading s; loadingPercent := loadingPercent s;
     loadingStatusText := loadingStatusText s;
     generatedResult := generatedResult s; taskList := taskList s;
     currentTaskId := currentTaskId s; projectData := pd |}.

(** [projectData.url = u] and [projectData.prompt = p] *)
Definition assign_url (u : string) (pd : project_data) : project_data :=
  {| url := u; prompt := prompt pd; title := title pd; type := type pd;
     engine := engine pd; timeRange := timeRange pd; options := options pd |}.

Definition assign_prompt (p : string) (pd : project_data) : project_data :=
  {| url := url pd; prompt := p; title := title pd; type := type pd;
     engine := engine pd; timeRange := timeRange pd; options := options pd |}.

Module Form.

(** [resetFlow] (App.vue 387-391, part_000 271-275). *)
Definition resetFlow : M unit :=
  modify (fun s => set_projectData (assign_url "" (projectData s)) s) ;;;
  modify (fun s => set_projectData (assign_prompt "" (projectData s)) s) ;;;
  modify (set_generatedResult None).

End Form.

(** The rich-text editor of App.vue.  The editor is a collaborator: what
    the component does to it is the list of the effects it causes.
    [editor.value] is [None] while the editor does not exist; of an
    existing editor the component reads the [href] of the link under the
    selection.  [window.prompt] answers [None] for [null] (cancelled). *)
Module Editor.

Inductive command : Type :=
| SetLink (href : string)
| UnsetLink
| SetImage (src : string)
| SetColor (color : value)
| SetContent (html : string) (emitUpdate : bool)
| Destroy.

Inductive effect : Type :=
| Prompt (text : string) (preset : value)
| Run (c : command)
| ReadAsDataURL (file : string).

Record editor : Type := { link_href : value }.

Definition prompt_answer : Type := string -> value -> option string.

Definition setLink (ed : option editor) (answer : prompt_answer)
  : list effect :=
  match ed with
  | None => []
  | Some e =>
      let previousUrl := link_href e in
      let preset := or_else previousUrl (VStr "https://") in
      Prompt "请输入链接地址" preset ::
      match answer "请输入链接地址" preset with
      | None => []
      | Some url =>
          if url =? "" then [Run UnsetLink] else [Run (SetLink url)]
      end
  end.

Definition unsetLink (ed : option editor) : list effect :=
  match ed with
  | None => []
  | Some _ => [Run UnsetLink]
  end.

Definition addImageByUrl (ed : option editor) (answer : prompt_answer)
  : list effect :=
  match ed with
  | None => []
  | Some _ =>
      Prompt "请输入图片 URL" VUndefined ::
      match answer "请输入图片 URL" VUndefined with
      | None => []
      | Some url => if url =? "" then [] else [Run (SetImage url)]
      end
  end.

(** [setTextColor(event)], given [event?.target?.value]. *)
Definition setTextColor (ed : option editor) (color : value) : list effect :=
  if negb (truthy color) then []
  else match ed with
       | None => []
       | Some _ => [Run (SetColor color)]
       end.

(** The callback of [watch(() => generatedResult.value?.content, ...)]. *)
Definition on_content_change (ed : option editor) (content : value)
  : list effect :=
  match ed, content with
  | Some _, VStr s =>
      [Run (SetContent (if s =? "" then "<p>暂无生成内容</p>" else s) false)]
  | _, _ => []
  end.

(** The [onBeforeUnmount] hook. *)
Definition on_before_unmount (ed : option editor) : list effect :=
  match ed with
  | None => []
  | Some _ => [Run Destroy]
  end.

(** An item of the clipboard: its MIME type and what [getAsFile()] gives
    ([None] for [null]). *)
Record item : Type := {
  item_type : string;
  getAsFile : option string
}.

(** The [for ... of] loop of [handlePaste]: the returned flag and the file
    handed to the reader. *)
Fixpoint paste_items (items : list item) : bool * list effect :=
  match items with
  | [] => (false, [])
  | it :: rest =>
      if String.prefix "image/" (item_type it) then
        match getAsFile it with
        | None => paste_items rest
        | Some file => (true, [ReadAsDataURL file])
        end
      else paste_items rest
  end.

(** [handlePaste(view, event)], given [event.clipboardData?.items]. *)
Definition handlePaste (items : option (list item)) : bool * list effect :=
  match items with
  | None => (false, [])
  | Some l => paste_items l
  end.

(** [reader.onload], given [reader.result]. *)
Definition reader_onload (ed : option editor) (result : value) : list effect :=
  match result, ed with
  | VStr src, Some _ => [Run (SetImage src)]
  | _, _ => []
  end.

End Editor.

(* ================================================================= *)
(** ** The tunnel script: [src/unnamed/part_001] *)

Module Tunnel.

(** [${n:-word}]: the [n]-th argument, or [word] when it is unset or
    empty. *)
Definition or_default (arg : option string) (word : string) : string :=
  match arg with
  | Some s => if s =? "" then word else s
  | None => word
  end.

Inductive finish : Type :=
| Exit (code : nat)
| Exec (argv : list string).

Definition proxy_variables : list string :=
  ["http_proxy"; "https_proxy"; "all_proxy"; "HTTP_PROXY"; "HTTPS_PROXY";
   "ALL_PROXY"; "no_proxy"; "NO_PROXY"].

(** The script, given its arguments and whether [command -v cloudflared]
    succeeds: the lines it prints and how it ends. *)
Definition start_tunnel (args : list string) (cloudflared_found : bool)
  : list string * finish :=
  let LOCAL_PORT := or_default (nth_error args 0) "8000" in
  let LOCAL_HOST := or_default (nth_error args 1) "127.0.0.1" in
  if negb cloudflared_found then
    (["cloudflared not found. Install it first:";
      "  brew install cloudflared"],
     Exit 1)
  else
    (["Starting quick tunnel for http://" ++ LOCAL_HOST ++ ":" ++ LOCAL_PORT;
      "After startup, copy the https://*.trycloudflare.com URL.";
      "Then export PUBLIC_BASE_URL to that URL before starting backend.";
      ""]%string,
     Exec ("env" :: flat_map (fun v => ["-u"; v]) proxy_variables
           ++ ["cloudflared"; "tunnel"; "--protocol"; "http2";
               "--edge-ip-version"; "4"; "--url";
               ("http://" ++ LOCAL_HOST ++ ":" ++ LOCAL_PORT)%string])).

End Tunnel.

(* ================================================================= *)
(** ** Facts about numbers and strict equality *)

Section FloatFacts.

Lemma SFeqb_true_inv (a b : spec_float) :
  SFeqb a b = true ->
  a = b \/ exists s1 s2, a = S754_zero s1 /\ b = S754_zero s2.
Proof.
  unfold SFeqb.
  destruct a as [sa|sa| |sa ma ea], b as [sb|sb| |sb mb eb]; simpl;
    try discriminate; try (destruct sa; discriminate);
    try (destruct sb; discriminate).
  - intros _. right. eauto.
  - destruct sa, sb; try discriminate; auto.
  - destruct sa, sb; try discriminate;
      destruct (Z.compare ea eb) eqn:E; try discriminate;
      apply Z.compare_eq in E; subst eb;
      destruct (Pos.compare_cont Eq ma mb) eqn:P; try discriminate;
      apply Pos.compare_eq in P; subst mb; auto.
Qed.

Lemma SFeqb_zero_l (s1 s2 : bool) (c : spec_float) :
  SFeqb (S754_zero s1) c = SFeqb (S754_zero s2) c.
Proof. destruct c; reflexivity. Qed.

Lemma SFeqb_zero_r (s1 s2 : bool) (c : spec_float) :
  SFeqb c (S754_zero s1) = SFeqb c (S754_zero s2).
Proof. destruct c; reflexivity. Qed.

(** [==] on numbers is a partial equivalence: equal numbers compare alike
    with every third number. *)
Lemma float_eqb_congr_l (a b c : float) :
  PrimFloat.eqb a b = true -> PrimFloat.eqb a c = PrimFloat.eqb b c.
Proof.
  rewrite !FloatAxioms.eqb_spec. intros E.
  destruct (SFeqb_true_inv _ _ E) as [-> | (s1 & s2 & -> & ->)].
  - reflexivity.
  - apply SFeqb_zero_l.
Qed.

Lemma float_eqb_congr_r (a b c : float) :
  PrimFloat.eqb a b = true -> PrimFloat.eqb c a = PrimFloat.eqb c b.
Proof.
  rewrite !FloatAxioms.eqb_spec. intros E.
  destruct (SFeqb_true_inv _ _ E) as [-> | (s1 & s2 & -> & ->)].
  - reflexivity.
  - apply SFeqb_zero_r.
Qed.

Lemma float_ltb_leb (a b : float) :
  PrimFloat.ltb a b = true -> PrimFloat.leb a b = true.
Proof.
  rewrite FloatAxioms.ltb_spec, FloatAxioms.leb_spec. unfold SFltb, SFleb.
  destruct (SFcompare _ _) as [[]|]; intros; try discriminate; reflexivity.
Qed.

(** The clamp of a number that is not [NaN] lies between 0 and 100. *)
Lemma clamp_range (x : float) :
  PrimFloat.is_nan x = false ->
  PrimFloat.leb 0 (Math_max 0 (Math_min 100 x)) = true /\
  PrimFloat.leb (Math_max 0 (Math_min 100 x)) 100 = true.
Proof.
  intros Hx.
  assert (Hmin : Math_min 100 x = x /\ PrimFloat.ltb x 100 = true \/
                 Math_min 100 x = 100%float).
  { unfold Math_min. rewrite Hx. change (PrimFloat.is_nan 100) with false.
    simpl. destruct (PrimFloat.ltb x 100); auto. }
  destruct Hmin as [[-> Hlt] | ->].
  - unfold Math_max. rewrite Hx. change (PrimFloat.is_nan 0) with false.
    simpl. destruct (PrimFloat.ltb 0 x) eqn:H0.
    + split; apply float_ltb_leb; assumption.
    + change (is_neg_zero 0) with false. simpl. split; reflexivity.
  - split; reflexivity.
Qed.

End FloatFacts.

Section StrictEq.

Lemma strict_eq_congr_l (a b c : value) :
  strict_eq a b = true -> strict_eq a c = strict_eq b c.
Proof.
  destruct a, b; simpl; try discriminate; intros E.
  - reflexivity.
  - reflexivity.
  - apply Bool.eqb_prop in E. now subst.
  - destruct c; try reflexivity. simpl. now apply float_eqb_congr_l.
  - apply String.eqb_eq in E. now subst.
Qed.

Lemma strict_eq_congr_r (a b c : value) :
  strict_eq a b = true -> strict_eq c a = strict_eq c b.
Proof.
  destruct a, b; simpl; try discriminate; intros E.
  - reflexivity.
  - reflexivity.
  - apply Bool.eqb_prop in E. now subst.
  - destruct c; try reflexivity. simpl. now apply float_eqb_congr_r.
  - apply String.eqb_eq in E. now subst.
Qed.

End StrictEq.

(* ================================================================= *)
(** ** [findIndex], indexed assignment and [upsertTask] *)

Section ListFacts.
Context {A : Type}.

Lemma findIndex_Some (p : A -> bool) (l : list A) (i : nat) :
  findIndex p l = Some i ->
  exists x, nth_error l i = Some x /\ p x = true.
Proof.
  revert i. induction l as [|y l IH]; simpl; intros i H.
  - discriminate.
  - destruct (p y) eqn:Py.
    + injection H as <-. exists y. auto.
    + destruct (findIndex p l) as [k|]; simpl in H; try discriminate.
      injection H as <-. destruct (IH k eq_refl) as (x & Hx & Px).
      exists x. auto.
Qed.

Lemma findIndex_None (p : A -> bool) (l : list A) :
  findIndex p l = None -> forall x, In x l -> p x = false.
Proof.
  induction l as [|y l IH]; simpl; intros H x Hin.
  - contradiction.
  - destruct (p y) eqn:Py; try discriminate.
    destruct (findIndex p l); simpl in H; try discriminate.
    destruct Hin as [<- | Hin]; auto.
Qed.

Lemma assign_at_length (i : nat) (v : A) (l : list A) :
  length (assign_at i v l) = length l.
Proof.
  revert i. induction l as [|y l IH]; intros [|i]; simpl; auto.
Qed.

Lemma assign_at_same (i : nat) (v x : A) (l : list A) :
  nth_error l i = Some x -> nth_error (assign_at i v l) i = Some v.
Proof.
  revert i. induction l as [|y l IH]; intros [|i]; simpl;
    try discriminate; auto.
Qed.

Lemma assign_at_other (i j : nat) (v : A) (l : list A) :
  j <> i -> nth_error (assign_at i v l) j = nth_error l j.
Proof.
  revert i j. induction l as [|y l IH]; intros [|i] [|j] H; simpl; auto.
  congruence.
Qed.
End ListFacts.

Lemma strict_eq_sym (a b : value) :
  strict_eq a b = true -> strict_eq b a = true.
Proof.
  intros E. rewrite <- (strict_eq_congr_l a b a E).
  rewrite (strict_eq_congr_r a b a E). exact E.
Qed.

(** Patching an entry found under the patch's id leaves the entry's id
    indistinguishable from the old one. *)
Lemma spread_taskId (old : Task.t) (patch : Patch.t) (c : value) :
  strict_eq (Task.taskId old) (Patch.get (Patch.taskId patch)) = true ->
  strict_eq (Task.taskId (spread old patch)) c = strict_eq (Task.taskId old) c /\
  strict_eq c (Task.taskId (spread old patch)) = strict_eq c (Task.taskId old).
Proof.
  intros E. unfold spread. simpl.
  destruct (Patch.taskId patch) as [v|]; simpl in *; [|auto].
  split; symmetry.
  - now apply strict_eq_congr_l.
  - now apply strict_eq_congr_r.
Qed.

Lemma unique_ids_assign (l : list Task.t) (i : nat) (old : Task.t)
      (patch : Patch.t) :
  nth_error l i = Some old ->
  strict_eq (Task.taskId old) (Patch.get (Patch.taskId patch)) = true ->
  unique_ids l ->
  unique_ids (assign_at i (spread old patch) l).
Proof.
  intros Hi E U j k a b Hj Hk Hab.
  assert (back : forall n e, nth_error (assign_at i (spread old patch) l) n = Some e ->
            exists e', nth_error l n = Some e' /\
              (forall c, strict_eq (Task.taskId e) c = strict_eq (Task.taskId e') c) /\
              (forall c, strict_eq c (Task.taskId e) = strict_eq c (Task.taskId e'))).
  { intros n e Hn. destruct (Nat.eq_dec n i) as [->|Hne].
    - rewrite (assign_at_same _ _ _ Hi) in Hn. injection Hn as <-.
      exists old. split; [assumption|].
      split; intros c; now apply spread_taskId.
    - rewrite (assign_at_other _ _ Hne) in Hn. exists e. auto. }
  destruct (back _ _ Hj) as (a' & Ha' & Hal & _).
  destruct (back _ _ Hk) as (b' & Hb' & _ & Hbr).
  apply (U j k a' b' Ha' Hb').
  rewrite <- Hal, <- Hbr. exact Hab.
Qed.

Lemma unique_ids_cons (l : list Task.t) (e : Task.t) :
  (forall x, In x l -> strict_eq (Task.taskId x) (Task.taskId e) = false) ->
  unique_ids l -> unique_ids (e :: l).
Proof.
  intros Hnew U [|i] [|j] a b Ha Hb Hab; simpl in *.
  - reflexivity.
  - injection Ha as <-. apply nth_error_In in Hb.
    apply strict_eq_sym in Hab. rewrite (Hnew _ Hb) in Hab. discriminate.
  - injection Hb as <-. apply nth_error_In in Ha.
    rewrite (Hnew _ Ha) in Hab. discriminate.
  - f_equal. eapply U; eauto.
Qed.

(** What [upsertTask] does to the array. *)
Lemma upsertTask_on_cases (patch : Patch.t) (l : list Task.t) :
  (exists i old,
      nth_error l i = Some old /\
      strict_eq (Task.taskId old) (Patch.get (Patch.taskId patch)) = true /\
      AppVue.upsertTask_on patch l = assign_at i (spread old patch) l) \/
  ((forall x, In x l ->
      strict_eq (Task.taskId x) (Patch.get (Patch.taskId patch)) = false) /\
   AppVue.upsertTask_on patch l = fresh_entry patch :: l).
Proof.
  unfold AppVue.upsertTask_on.
  destruct (findIndex _ l) as [i|] eqn:F.
  - left. destruct (findIndex_Some _ _ F) as (old & Hold & P).
    exists i, old. rewrite Hold. auto.
  - right. split; [|reflexivity].
    intros x Hx. exact (findIndex_None _ _ F x Hx).
Qed.

(** C10. [upsertTask] keeps the task ids of the client's task list unique:
    when the list holds at most one entry per task id before the call it
    does so afterwards.  Either an entry carrying the patch's id exists and
    is patched in place, every other position being unchanged, or no entry
    carries that id and a new entry is prepended. *)
Theorem upsertTask_preserves_unique_ids
        (patch : Patch.t) (env : backend) (w : world) :
  unique_ids (taskList (st w)) ->
  exists w',
    AppVue.upsertTask patch env w = (Ret tt, w') /\
    unique_ids (taskList (st w')) /\
    ((exists i old,
         nth_error (taskList (st w)) i = Some old /\
         strict_eq (Task.taskId old) (Patch.get (Patch.taskId patch)) = true /\
         nth_error (taskList (st w')) i = Some (spread old patch) /\
         length (taskList (st w')) = length (taskList (st w)) /\
         forall j, j <> i ->
           nth_error (taskList (st w')) j = nth_error (taskList (st w)) j) \/
     ((forall x, In x (taskList (st w)) ->
         strict_eq (Task.taskId x) (Patch.get (Patch.taskId patch)) = false) /\
      taskList (st w') = fresh_entry patch :: taskList (st w))).
Proof.
  intros U. eexists. split; [reflexivity|]. simpl.
  destruct (upsertTask_on_cases patch (taskList (st w)))
    as [(i & old & Hi & E & ->) | (Hnone & ->)].
  - split.
    + now apply unique_ids_assign.
    + left. exists i, old. repeat split; auto.
      * eapply assign_at_same; eauto.
      * apply assign_at_length.
      * intros j Hj. now apply assign_at_other.
  - split.
    + apply unique_ids_cons; auto.
    + right. auto.
Qed.

(* ================================================================= *)
(** ** [upsertTask]: applying a patch twice, and finding it again *)

Section UpsertTwice.

Lemma findIndex_assign_at {A} (p : A -> bool) (l : list A) (i : nat) (v : A) :
  findIndex p l = Some i -> p v = true ->
  findIndex p (assign_at i v l) = Some i.
Proof.
  revert i. induction l as [|y l IH]; intros i F Pv; simpl in *.
  - discriminate.
  - destruct (p y) eqn:Py.
    + injection F as <-. simpl. now rewrite Pv.
    + destruct (findIndex p l) as [k|] eqn:Fk; simpl in F; try discriminate.
      injection F as <-. simpl. rewrite Py, (IH k eq_refl Pv). reflexivity.
Qed.

Lemma assign_at_twice {A} (i : nat) (v : A) (l : list A) :
  assign_at i v (assign_at i v l) = assign_at i v l.
Proof.
  revert i. induction l as [|y l IH]; intros [|i]; simpl; try reflexivity.
  now rewrite IH.
Qed.

Lemma spread_spread (old : Task.t) (patch : Patch.t) :
  spread (spread old patch) patch = spread old patch.
Proof.
  unfold spread. destruct patch as [[a|] [b|] [c|] [d|]]; reflexivity.
Qed.

(** A key the patch carries holds a value, not [undefined] or [null]. *)
Definition defined_key (k : option value) : Prop :=
  k <> Some VUndefined /\ k <> Some VNull.

Lemma spread_fresh_entry (patch : Patch.t) :
  defined_key (Patch.progress patch) ->
  defined_key (Patch.stage patch) ->
  defined_key (Patch.status patch) ->
  spread (fresh_entry patch) patch = fresh_entry patch.
Proof.
  unfold defined_key, spread, fresh_entry.
  destruct patch as [[a|] [b|] [c|] [d|]]; cbn;
    intros [P1 P2] [S1 S2] [T1 T2];
    repeat match goal with
           | v : value |- _ => destruct v
           end; try reflexivity; congruence.
Qed.

Lemma upsertTask_on_twice (patch : Patch.t) (l : list Task.t) :
  strict_eq (Patch.get (Patch.taskId patch)) (Patch.get (Patch.taskId patch))
  = true ->
  defined_key (Patch.progress patch) ->
  defined_key (Patch.stage patch) ->
  defined_key (Patch.status patch) ->
  AppVue.upsertTask_on patch (AppVue.upsertTask_on patch l)
  = AppVue.upsertTask_on patch l.
Proof.
  intros Hid Hp Hs Ht.
  set (p := fun item : Task.t =>
              strict_eq (Task.taskId item) (Patch.get (Patch.taskId patch))).
  destruct (findIndex p l) as [i|] eqn:F.
  - destruct (findIndex_Some _ _ F) as (old & Hold & Pold).
    assert (E : AppVue.upsertTask_on patch l
                = assign_at i (spread old patch) l).
    { unfold AppVue.upsertTask_on. fold p. now rewrite F, Hold. }
    assert (Pnew : p (spread old patch) = true).
    { unfold p. destruct (spread_taskId old patch
                            (Patch.get (Patch.taskId patch)) Pold) as [-> _].
      exact Pold. }
    rewrite E. unfold AppVue.upsertTask_on. fold p.
    rewrite (findIndex_assign_at _ _ _ F Pnew).
    rewrite (assign_at_same _ _ _ Hold), spread_spread.
    apply assign_at_twice.
  - assert (E : AppVue.upsertTask_on patch l = fresh_entry patch :: l).
    { unfold AppVue.upsertTask_on. fold p. now rewrite F. }
    rewrite E. unfold AppVue.upsertTask_on. fold p.
    cbn [findIndex]. unfold p at 1. cbn [fresh_entry Task.taskId].
    rewrite Hid. cbn [nth_error assign_at].
    now rewrite spread_fresh_entry.
Qed.

(** X6. [upsertTask] is idempotent: applying a patch a second time changes
    nothing, provided the patch's task id equals itself (it is not [NaN])
    and the keys the patch carries are not [undefined] or [null]. *)
Theorem upsertTask_idempotent (patch : Patch.t) (env : backend) (w : world) :
  strict_eq (Patch.get (Patch.taskId patch)) (Patch.get (Patch.taskId patch))
  = true ->
  defined_key (Patch.progress patch) ->
  defined_key (Patch.stage patch) ->
  defined_key (Patch.status patch) ->
  bind (AppVue.upsertTask patch) (fun _ => AppVue.upsertTask patch) env w
  = AppVue.upsertTask patch env w.
Proof.
  intros Hid Hp Hs Ht.
  unfold bind, AppVue.upsertTask, modify. cbn [st trace n_http n_clock].
  unfold set_taskList. cbn.
  now rewrite upsertTask_on_twice.
Qed.

(** X7. After [upsertTask] the patch's task id is listed: looking it up the
    way [upsertTask] does finds an entry that carries the id and every
    value of the patch that is not [undefined] or [null]. *)
Theorem upsertTask_then_found (patch : Patch.t) (env : backend) (w : world) :
  strict_eq (Patch.get (Patch.taskId patch)) (Patch.get (Patch.taskId patch))
  = true ->
  let l' := taskList (st (snd (AppVue.upsertTask patch env w))) in
  exists i e,
    findIndex (fun item => strict_eq (Task.taskId item)
                                     (Patch.get (Patch.taskId patch))) l'
    = Some i /\
    nth_error l' i = Some e /\
    Task.taskId e = Patch.get (Patch.taskId patch) /\
    (forall v, Patch.progress patch = Some v ->
               v <> VUndefined -> v <> VNull -> Task.progress e = v) /\
    (forall v, Patch.stage patch = Some v ->
               v <> VUndefined -> v <> VNull -> Task.stage e = v) /\
    (forall v, Patch.status patch = Some v ->
               v <> VUndefined -> v <> VNull -> Task.status e = v).
Proof.
  intros Hid. cbn.
  set (p := fun item : Task.t =>
              strict_eq (Task.taskId item) (Patch.get (Patch.taskId patch))).
  unfold AppVue.upsertTask_on. fold p.
  destruct (findIndex p (taskList (st w))) as [i|] eqn:F.
  - destruct (findIndex_Some _ _ F) as (old & Hold & Pold). rewrite Hold.
    assert (Pnew : p (spread old patch) = true).
    { unfold p. destruct (spread_taskId old patch
                            (Patch.get (Patch.taskId patch)) Pold) as [-> _].
      exact Pold. }
    exists i, (spread old patch).
    split; [now apply findIndex_assign_at|].
    split; [eapply assign_at_same; eassumption|].
    unfold p in Pold. clear F Pnew Hid p.
    destruct patch as [a b c d]. unfold spread. cbn in *. split.
    + destruct a as [v|]; cbn in *; [reflexivity|].
      destruct (Task.taskId old); try discriminate. reflexivity.
    + repeat split; intros v [= ->]; reflexivity.
  - exists 0, (fresh_entry patch). fold (fresh_entry patch).
    split; [cbn; unfold p; cbn; now rewrite Hid|].
    split; [reflexivity|]. split; [reflexivity|].
    clear F Hid p. destruct patch as [a b c d]. cbn.
    repeat split; intros v [= ->] N1 N2; cbn; destruct v; try reflexivity;
      congruence.
Qed.

End UpsertTwice.

(* ================================================================= *)
(** ** Traces *)

Lemma requests_app (t1 t2 : list event) :
  requests (t1 ++ t2) = requests t1 ++ requests t2.
Proof.
  induction t1 as [|[] t1 IH]; simpl; rewrite ?IH; reflexivity.
Qed.

Lemma slept_app (t1 t2 : list event) :
  slept (t1 ++ t2) = (slept t1 + slept t2)%N.
Proof.
  induction t1 as [|[] t1 IH]; simpl; rewrite ?IH; lia.
Qed.

Lemma slept_waiting_turns (taskId : value) (k : nat) :
  slept (concat (repeat (waiting_turn taskId) k)) = (2000 * N.of_nat k)%N.
Proof.
  induction k as [|k IH].
  - reflexivity.
  - cbn [repeat concat]. rewrite slept_app, IH.
    change (slept (waiting_turn taskId)) with 2000%N. lia.
Qed.

Lemma requests_waiting_turns (taskId : value) (k : nat) :
  requests (concat (repeat (waiting_turn taskId) k))
  = repeat (poll_request taskId) k.
Proof.
  induction k as [|k IH].
  - reflexivity.
  - cbn [repeat concat]. rewrite requests_app, IH. reflexivity.
Qed.

(* ================================================================= *)
(** ** One turn of the polling loop *)

Section PollBody.
Context `{Runtime}.
Variables (taskId : value) (env : backend) (w : world) (data : Resp.t).
Hypothesis answer : respond env (n_http w) (poll_request taskId) = HttpOk data.

Lemma status_of_inv (s : string) :
  status_of data = Some s ->
  exists s0, or_else (Resp.status data) (VStr "") = VStr s0 /\
             toUpperCase s0 = s.
Proof.
  unfold status_of. destruct (or_else _ _); try discriminate.
  intros [= <-]. eauto.
Qed.

Ltac run_body s0 :=
  unfold AppVue.poll_body, bind, axios; fold (poll_request taskId);
  rewrite answer;
  match goal with
  | E : or_else (Resp.status data) (VStr "") = VStr s0 |- _ => rewrite E
  end;
  cbn [call_toUpperCase ret AppVue.upsertTask modify].

(** A turn whose status is not terminal: one request, one 2-second
    sleep, and the loop goes on. *)
Lemma poll_body_continue :
  non_terminal data ->
  exists w',
    AppVue.poll_body taskId env w = (Ret AppVue.Continue, w') /\
    trace w' = trace w ++ waiting_turn taskId /\
    n_http w' = S (n_http w) /\
    n_clock w' = n_clock w /\
    projectData (st w') = projectData (st w).
Proof.
  intros (s & Hs & Hsucc & Hfail & Hcanc).
  destruct (status_of_inv Hs) as (s0 & E & <-).
  run_body s0.
  destruct (toUpperCase s0 =? "PENDING") eqn:E1;
    [|destruct (toUpperCase s0 =? "RUNNING") eqn:E2;
      [|destruct (toUpperCase s0 =? "SUCCESS") eqn:E3;
        [apply String.eqb_eq in E3; contradiction
        |destruct (toUpperCase s0 =? "FAILED") eqn:E4;
         [apply String.eqb_eq in E4; contradiction
         |destruct (toUpperCase s0 =? "CANCELED") eqn:E5;
          [apply String.eqb_eq in E5; contradiction|]]]]];
    cbn [sleep emit ret st trace n_http n_clock];
    (eexists; split; [reflexivity|]);
    cbn [st trace n_http n_clock]; rewrite <- app_assoc;
    repeat split; reflexivity.
Qed.

Lemma upsertTask_on_entry (id : value) (x : float) (sg s : string)
      (l : list Task.t) :
  exists i,
    nth_error (AppVue.upsertTask_on
                 (AppVue.patch_of id (VNum x) (VStr sg) (VStr s)) l) i
    = Some (Task.make id (VNum x) (VStr sg) (VStr s)).
Proof.
  destruct (upsertTask_on_cases
              (AppVue.patch_of id (VNum x) (VStr sg) (VStr s)) l)
    as [(i & old & Hi & _ & ->) | (_ & ->)].
  - exists i. erewrite assign_at_same by eassumption. reflexivity.
  - exists 0. reflexivity.
Qed.

Lemma nullish_or_else (a d : value) (s : string) :
  nullish (or_else a (VStr s)) d = or_else a (VStr s).
Proof.
  unfold or_else. destruct a; simpl; try reflexivity;
    match goal with
    | |- context [if ?b then _ else _] => destruct b
    end; reflexivity.
Qed.

Lemma upsertTask_on_entry_stage (id : value) (x : float) (a : value)
      (sg s : string) (l : list Task.t) :
  exists i,
    nth_error (AppVue.upsertTask_on
                 (AppVue.patch_of id (VNum x) (or_else a (VStr sg)) (VStr s)) l) i
    = Some (Task.make id (VNum x) (or_else a (VStr sg)) (VStr s)).
Proof.
  destruct (upsertTask_on_cases
              (AppVue.patch_of id (VNum x) (or_else a (VStr sg)) (VStr s)) l)
    as [(i & old & Hi & _ & ->) | (_ & ->)].
  - exists i. erewrite assign_at_same by eassumption. reflexivity.
  - exists 0. unfold fresh_entry. cbn [AppVue.patch_of Patch.get Patch.taskId
      Patch.progress Patch.stage Patch.status nth_error].
    rewrite nullish_or_else. reflexivity.
Qed.

(** What a waiting turn writes: the indicator gets the clamped progress,
    the task's entry the progress as the backend sent it. *)
Lemma poll_body_waiting_progress :
  non_terminal data ->
  let p := Number (nullish (Resp.progress data) (VNum 0)) in
  exists w' s,
    AppVue.poll_body taskId env w = (Ret AppVue.Continue, w') /\
    status_of data = Some s /\
    loadingPercent (st w') = Math_max 0 (Math_min 100 p) /\
    (exists i, nth_error (taskList (st w')) i
               = Some (Task.make taskId (VNum p)
                                 (or_else (Resp.stage data) (VStr ""))
                                 (VStr s))).
Proof.
  intros (s & Hs & Hsucc & Hfail & Hcanc) p.
  destruct (status_of_inv Hs) as (s0 & E & Hup).
  run_body s0. rewrite Hup.
  destruct (s =? "PENDING") eqn:E1;
    [|destruct (s =? "RUNNING") eqn:E2;
      [|destruct (s =? "SUCCESS") eqn:E3;
        [apply String.eqb_eq in E3; contradiction
        |destruct (s =? "FAILED") eqn:E4;
         [apply String.eqb_eq in E4; contradiction
         |destruct (s =? "CANCELED") eqn:E5;
          [apply String.eqb_eq in E5; contradiction|]]]]];
    cbn [sleep emit ret st trace n_http n_clock];
    (do 2 eexists; split; [reflexivity|]);
    cbn [st set_loadingPercent set_loadingStatusText set_taskList
         loadingPercent taskList];
    (split; [exact Hs|]); (split; [reflexivity|]);
    apply upsertTask_on_entry_stage.
Qed.

(** A turn that reads [SUCCESS]: no sleep, the indicator and the task's
    entry are forced to 100 and the answer is returned. *)
Lemma poll_body_success :
  status_of data = Some "SUCCESS" ->
  exists w',
    AppVue.poll_body taskId env w = (Ret (AppVue.Return data), w') /\
    trace w' = trace w ++ [EHttp (poll_request taskId)] /\
    n_http w' = S (n_http w) /\
    n_clock w' = n_clock w /\
    loadingPercent (st w') = 100%float /\
    loadingStatusText (st w') = VStr "处理完成" /\
    (exists i, nth_error (taskList (st w')) i
               = Some (Task.make taskId (VNum 100) (VStr "处理完成")
                                 (VStr "SUCCESS"))) /\
    currentTaskId (st w') = currentTaskId (st w) /\
    loading (st w') = loading (st w) /\
    generatedResult (st w') = generatedResult (st w).
Proof.
  intros Hs. destruct (status_of_inv Hs) as (s0 & E & Hup).
  run_body s0. rewrite Hup.
  cbn [String.eqb Ascii.eqb Bool.eqb].
  cbn [sleep emit ret st trace n_http n_clock set_loadingPercent
       set_loadingStatusText set_taskList loadingPercent loadingStatusText
       taskList currentTaskId loading generatedResult].
  eexists; split; [reflexivity|].
  cbn [st trace n_http n_clock set_loadingPercent
       set_loadingStatusText set_taskList loadingPercent loadingStatusText
       taskList currentTaskId loading generatedResult].
  repeat split; try reflexivity.
  apply upsertTask_on_entry.
Qed.

(** A turn that reads [FAILED] or [CANCELED]: the task's entry gets the
    label of that branch and an [Error] is thrown whose message is the
    answer's [detail], or the fallback of that branch. *)
Lemma poll_body_terminal_error (s label fallback : string) :
  status_of data = Some s ->
  (s = "FAILED" /\ label = "处理失败" /\ fallback = "任务执行失败") \/
  (s = "CANCELED" /\ label = "任务已取消" /\ fallback = "任务已取消") ->
  exists w',
    AppVue.poll_body taskId env w
    = (Throw (Error (ToString (or_else (Resp.detail data) (VStr fallback)))),
       w') /\
    trace w' = trace w ++ [EHttp (poll_request taskId)] /\
    n_http w' = S (n_http w) /\
    n_clock w' = n_clock w /\
    (exists i, nth_error (taskList (st w')) i
               = Some (Task.make taskId (VNum 100) (VStr label) (VStr s))).
Proof.
  intros Hs Hcase. destruct (status_of_inv Hs) as (s0 & E & Hup).
  run_body s0. rewrite Hup.
  destruct Hcase as [(-> & -> & ->) | (-> & -> & ->)];
    cbn [String.eqb Ascii.eqb Bool.eqb];
    cbn [throw st trace n_http n_clock set_loadingPercent
         set_loadingStatusText set_taskList taskList];
    (eexists; split; [reflexivity|]);
    cbn [st trace n_http n_clock set_taskList taskList];
    repeat split; try reflexivity; apply upsertTask_on_entry.
Qed.

End PollBody.

Section PollBodyAny.
Context `{Runtime}.
Variables (taskId : value) (env : backend) (w : world).

(** A rejected request is thrown on, and nothing else happens. *)
Lemma poll_body_rejected (d : value) (m : string) :
  respond env (n_http w) (poll_request taskId) = HttpErr d m ->
  AppVue.poll_body taskId env w
  = (Throw (AxiosError d m),
     {| st := st w; trace := trace w ++ [EHttp (poll_request taskId)];
        n_http := S (n_http w); n_clock := n_clock w |}).
Proof.
  intros E. unfold AppVue.poll_body, bind, axios.
  fold (poll_request taskId). rewrite E. reflexivity.
Qed.

(** A truthy status that is not a string has no [toUpperCase]. *)
Lemma poll_body_type_error (data : Resp.t) :
  respond env (n_http w) (poll_request taskId) = HttpOk data ->
  status_of data = None ->
  AppVue.poll_body taskId env w
  = (Throw (TypeError (notAFunction "toUpperCase")),
     {| st := st w; trace := trace w ++ [EHttp (poll_request taskId)];
        n_http := S (n_http w); n_clock := n_clock w |}).
Proof.
  intros E Hs. unfold AppVue.poll_body, bind, axios.
  fold (poll_request taskId). rewrite E.
  unfold status_of in Hs.
  destruct (or_else (Resp.status data) (VStr "")); try discriminate;
    reflexivity.
Qed.

(** Every turn issues exactly one request, whatever the backend answers. *)
Lemma poll_body_one_request :
  n_http (snd (AppVue.poll_body taskId env w)) = S (n_http w) /\
  requests (trace (snd (AppVue.poll_body taskId env w)))
  = requests (trace w) ++ [poll_request taskId].
Proof.
  destruct (respond env (n_http w) (poll_request taskId)) as [data|d m] eqn:E.
  - destruct (status_of data) as [s|] eqn:Hs.
    + destruct (string_dec s "SUCCESS") as [->|N1].
      { destruct (poll_body_success taskId env w E Hs)
          as (w' & -> & T & N & _).
        simpl. rewrite T, requests_app. auto. }
      destruct (string_dec s "FAILED") as [->|N2].
      { destruct (poll_body_terminal_error taskId env w E Hs
                    (or_introl (conj eq_refl (conj eq_refl eq_refl))))
          as (w' & -> & T & N & _).
        simpl. rewrite T, requests_app. auto. }
      destruct (string_dec s "CANCELED") as [->|N3].
      { destruct (poll_body_terminal_error taskId env w E Hs
                    (or_intror (conj eq_refl (conj eq_refl eq_refl))))
          as (w' & -> & T & N & _).
        simpl. rewrite T, requests_app. auto. }
      destruct (poll_body_continue taskId env w E) as (w' & -> & T & N & _).
      { exists s. auto. }
      simpl. rewrite T, requests_app. auto.
    + rewrite (poll_body_type_error E Hs). simpl.
      rewrite requests_app. auto.
  - rewrite (poll_body_rejected E). simpl. rewrite requests_app. auto.
Qed.

End PollBodyAny.


(* ================================================================= *)
(** ** The polling loop *)

Section PollLoop.
Context `{Runtime}.
Variables (taskId : value) (env : backend).

Lemma poll_for_step (n : nat) (w : world) :
  AppVue.poll_for (S n) taskId env w
  = match AppVue.poll_body taskId env w with
    | (Ret AppVue.Continue, w') => AppVue.poll_for n taskId env w'
    | (Ret (AppVue.Return data), w') => (Ret data, w')
    | (Throw e, w') => (Throw e, w')
    end.
Proof.
  cbn [AppVue.poll_for]. unfold bind.
  destruct (AppVue.poll_body taskId env w) as [[[|d]|e] w']; reflexivity.
Qed.

(** [k] waiting turns use up [k] of the loop's turns, [k] requests and
    [k] sleeps of two seconds. *)
Lemma poll_for_waits (k m : nat) :
  forall w,
    keeps_waiting env taskId (n_http w) k ->
    exists w',
      AppVue.poll_for (k + m) taskId env w = AppVue.poll_for m taskId env w' /\
      trace w' = trace w ++ concat (repeat (waiting_turn taskId) k) /\
      n_http w' = n_http w + k /\
      n_clock w' = n_clock w /\
      projectData (st w') = projectData (st w).
Proof.
  induction k as [|k IH]; intros w Hk.
  - exists w. simpl. rewrite app_nil_r, Nat.add_0_r. auto.
  - destruct (Hk 0 ltac:(lia)) as (d & Hd & Hnt).
    rewrite Nat.add_0_r in Hd.
    destruct (poll_body_continue taskId env w Hd Hnt)
      as (w1 & Hbody & T1 & N1 & C1 & P1).
    destruct (IH w1) as (w' & Hloop & T & N & C & P).
    { intros i Hi. destruct (Hk (S i) ltac:(lia)) as (d' & Hd' & Hnt').
      exists d'. split; [|assumption].
      rewrite N1. rewrite <- Hd'. f_equal. lia. }
    exists w'. split; [|repeat split].
    + change (S k + m) with (S (k + m)). rewrite poll_for_step, Hbody.
      exact Hloop.
    + rewrite T, T1. cbn [repeat concat]. now rewrite !app_assoc.
    + lia.
    + congruence.
    + congruence.
Qed.

(** The loop never issues more requests than it has turns. *)
Lemma poll_for_bounded (n : nat) :
  forall w,
    n_http (snd (AppVue.poll_for n taskId env w)) <= n_http w + n.
Proof.
  induction n as [|n IH]; intros w.
  - simpl. lia.
  - rewrite poll_for_step.
    pose proof (poll_body_one_request taskId env w) as [N _].
    destruct (AppVue.poll_body taskId env w) as [[[|d]|e] w1]; simpl in *.
    + specialize (IH w1). lia.
    + lia.
    + lia.
Qed.

End PollLoop.

(* ================================================================= *)
(** ** [pollGenerateTask]: timeout, unknown statuses, terminal failures *)

Section PollOutcomes.
Context `{Runtime}.

Lemma waiting_statuses_keep_waiting (env : backend) (taskId : value)
      (w : world) (k : nat) :
  (forall i, i < k ->
     exists d, respond env (n_http w + i) (poll_request taskId) = HttpOk d /\
               (status_of d = Some "PENDING" \/ status_of d = Some "RUNNING")) ->
  keeps_waiting env taskId (n_http w) k.
Proof.
  intros Hw i Hi. destruct (Hw i Hi) as (d & Hd & Hs).
  exists d. split; [assumption|].
  destruct Hs as [Hs | Hs]; eexists; (split; [exact Hs|]);
    repeat split; discriminate.
Qed.

(** A poll reached after [k] waiting turns, [k] below the bound, is still
    inside the loop. *)
Lemma pollGenerateTask_reaches (env : backend) (taskId : value) (w : world)
      (k : nat) :
  k < AppVue.maxPollTimes ->
  keeps_waiting env taskId (n_http w) k ->
  exists w1,
    AppVue.pollGenerateTask taskId env w
    = AppVue.poll_for (S (AppVue.maxPollTimes - S k)) taskId env w1 /\
    trace w1 = trace w ++ concat (repeat (waiting_turn taskId) k) /\
    n_http w1 = n_http w + k /\
    n_clock w1 = n_clock w /\
    projectData (st w1) = projectData (st w).
Proof.
  intros Hk Hw.
  destruct (poll_for_waits (S (AppVue.maxPollTimes - S k)) w Hw)
    as (w1 & Hloop & Hrest).
  exists w1. split; [|exact Hrest].
  unfold AppVue.pollGenerateTask. rewrite <- Hloop. f_equal. lia.
Qed.

(** C1. Whatever the task id, when every answer of the backend reads
    [PENDING] or [RUNNING], [pollGenerateTask] polls exactly 600 times,
    sleeps 2 seconds after each poll (20 minutes in all) and then throws
    the client's own timeout error: an [Error] built from a constant of the
    client, carrying no detail of the server and different from the two
    fallback messages of a failure the server reports. *)
Theorem pollGenerateTask_times_out
        (taskId : value) (env : backend) (w : world) :
  (forall i, i < 600 ->
     exists d, respond env (n_http w + i) (poll_request taskId) = HttpOk d /\
               (status_of d = Some "PENDING" \/ status_of d = Some "RUNNING")) ->
  exists w',
    AppVue.pollGenerateTask taskId env w
    = (Throw (Error "任务轮询超时，请稍后重试"), w') /\
    trace w' = trace w ++ concat (repeat (waiting_turn taskId) 600) /\
    requests (trace w') = requests (trace w) ++ repeat (poll_request taskId) 600 /\
    n_http w' = n_http w + 600 /\
    slept (trace w') = (slept (trace w) + 20 * 60 * 1000)%N /\
    response_detail (Error "任务轮询超时，请稍后重试") = VUndefined /\
    "任务轮询超时，请稍后重试" <> "任务执行失败" /\
    "任务轮询超时，请稍后重试" <> "任务已取消".
Proof.
  intros Hw. apply waiting_statuses_keep_waiting in Hw.
  destruct (poll_for_waits 0 w Hw) as (w' & Hloop & T & N & _).
  exists w'. rewrite Nat.add_0_r in Hloop.
  split; [exact Hloop|]. split; [exact T|].
  split; [now rewrite T, requests_app, requests_waiting_turns|].
  split; [exact N|].
  split; [rewrite T, slept_app, slept_waiting_turns; reflexivity|].
  repeat split; discriminate.
Qed.

(** The bound holds for every backend: [pollGenerateTask] never issues more
    than 600 requests. *)
Lemma pollGenerateTask_bounded (taskId : value) (env : backend) (w : world) :
  n_http (snd (AppVue.pollGenerateTask taskId env w)) <= n_http w + 600.
Proof. apply poll_for_bounded. Qed.

(** C9, as the code has it.  The status is compared after [toUpperCase],
    and a missing (or otherwise falsy) status reads as the empty string.
    For an answer whose status is missing or a string, and whose uppercased
    status is none of [PENDING], [RUNNING], [SUCCESS], [FAILED],
    [CANCELED], the turn neither returns nor throws: it sleeps 2 seconds
    and the loop polls again with one turn fewer left. *)
Theorem unknown_string_status_waits_and_repolls
        (taskId : value) (env : backend) (w : world) (data : Resp.t)
        (s : string) (remaining : nat) :
  respond env (n_http w) (poll_request taskId) = HttpOk data ->
  (truthy (Resp.status data) = false /\ s = "") \/
  (exists s0, Resp.status data = VStr s0 /\ s = toUpperCase s0) ->
  s <> "PENDING" -> s <> "RUNNING" -> s <> "SUCCESS" ->
  s <> "FAILED" -> s <> "CANCELED" ->
  exists w',
    AppVue.poll_body taskId env w = (Ret AppVue.Continue, w') /\
    trace w' = trace w ++ [EHttp (poll_request taskId); ESleep 2000] /\
    n_http w' = S (n_http w) /\
    AppVue.poll_for (S remaining) taskId env w
    = AppVue.poll_for remaining taskId env w' /\
    (remaining = 599 ->
     AppVue.pollGenerateTask taskId env w
     = AppVue.poll_for 599 taskId env w').
Proof.
  intros Hd Hstatus _ _ N3 N4 N5.
  assert (Hs : status_of data = Some s).
  { unfold status_of, or_else.
    destruct Hstatus as [(Hf & ->) | (s0 & E & ->)].
    - rewrite Hf. now rewrite toUpperCase_empty.
    - rewrite E. cbn [truthy].
      destruct (s0 =? "") eqn:E0; cbn [negb]; [|reflexivity].
      apply String.eqb_eq in E0. now subst s0. }
  destruct (poll_body_continue taskId env w Hd) as (w' & Hb & T & N & _).
  { exists s. auto. }
  exists w'. split; [exact Hb|]. split; [exact T|]. split; [exact N|].
  assert (Hstep : forall n, AppVue.poll_for (S n) taskId env w
                            = AppVue.poll_for n taskId env w').
  { intros n. now rewrite poll_for_step, Hb. }
  split; [apply Hstep|].
  intros ->. apply Hstep.
Qed.

(** C6. An answer that reads [FAILED] or [CANCELED] makes
    [pollGenerateTask] throw an [Error], never return a payload.  The
    message is the answer's [detail] when it has one and the fallback of the
    branch otherwise.  The two statuses take different branches: the task's
    entry gets the failure label for [FAILED] and the cancellation label
    for [CANCELED]. *)
Theorem terminal_failure_throws
        (taskId : value) (env : backend) (w : world) (k : nat)
        (data : Resp.t) (s : string) :
  k < 600 ->
  keeps_waiting env taskId (n_http w) k ->
  respond env (n_http w + k) (poll_request taskId) = HttpOk data ->
  status_of data = Some s ->
  s = "FAILED" \/ s = "CANCELED" ->
  exists w' label fallback,
    (s = "FAILED" /\ label = "处理失败" /\ fallback = "任务执行失败" \/
     s = "CANCELED" /\ label = "任务已取消" /\ fallback = "任务已取消") /\
    AppVue.pollGenerateTask taskId env w
    = (Throw (Error (ToString (or_else (Resp.detail data) (VStr fallback)))),
       w') /\
    (forall d, Resp.detail data = VStr d -> d <> "" ->
       AppVue.pollGenerateTask taskId env w = (Throw (Error d), w')) /\
    (truthy (Resp.detail data) = false ->
       AppVue.pollGenerateTask taskId env w = (Throw (Error fallback), w')) /\
    (forall payload w'',
       AppVue.pollGenerateTask taskId env w <> (Ret payload, w'')) /\
    (exists i, nth_error (taskList (st w')) i
               = Some (Task.make taskId (VNum 100) (VStr label) (VStr s))) /\
    n_http w' = n_http w + S k /\
    "处理失败" <> "任务已取消".
Proof.
  intros Hk Hw Hd Hs Hcase.
  destruct (pollGenerateTask_reaches w Hk Hw) as (w1 & Hreach & T1 & N1 & _).
  rewrite <- N1 in Hd.
  assert (Hsel : exists label fallback,
             s = "FAILED" /\ label = "处理失败" /\ fallback = "任务执行失败" \/
             s = "CANCELED" /\ label = "任务已取消" /\ fallback = "任务已取消").
  { destruct Hcase as [-> | ->]; do 2 eexists; [left|right]; eauto. }
  destruct Hsel as (label & fallback & Hsel).
  destruct (poll_body_terminal_error taskId env w1 Hd Hs Hsel)
    as (w' & Hb & T & N & _ & Hentry).
  assert (Hrun : AppVue.pollGenerateTask taskId env w
                 = (Throw (Error (ToString (or_else (Resp.detail data)
                                                    (VStr fallback)))), w')).
  { now rewrite Hreach, poll_for_step, Hb. }
  exists w', label, fallback. split; [exact Hsel|]. split; [exact Hrun|].
  split; [|split; [|split; [|split; [exact Hentry|split]]]].
  - intros d Ed Hne. rewrite Hrun. unfold or_else. rewrite Ed. simpl.
    destruct (d =? "") eqn:E0; [apply String.eqb_eq in E0; contradiction|].
    reflexivity.
  - intros Hf. rewrite Hrun. unfold or_else. now rewrite Hf.
  - intros payload w''. rewrite Hrun. discriminate.
  - lia.
  - discriminate.
Qed.

End PollOutcomes.

(* ================================================================= *)
(** ** [pollGenerateTask] against an arbitrary backend *)

Section PollAnyBackend.
Context `{Runtime}.
Variables (taskId : value) (env : backend).

(** A turn touches the task list, the indicator and the status text only:
    it reads no clock and leaves the form, the current task id, the
    loading flag and the stored result alone. *)
Lemma poll_body_frame (w : world) :
  let w' := snd (AppVue.poll_body taskId env w) in
  n_clock w' = n_clock w /\
  projectData (st w') = projectData (st w) /\
  currentTaskId (st w') = currentTaskId (st w) /\
  loading (st w') = loading (st w) /\
  generatedResult (st w') = generatedResult (st w).
Proof.
  unfold AppVue.poll_body, bind, axios.
  destruct (respond env (n_http w) (GetTask taskId 15000)) as [data|d m];
    [|cbn; auto].
  destruct (or_else (Resp.status data) (VStr "")); try (cbn; auto; fail).
  cbn [call_toUpperCase ret AppVue.upsertTask modify].
  repeat match goal with
         | |- context [if ?b then _ else _] => destruct b
         end; cbn; auto.
Qed.

Lemma poll_for_frame (n : nat) :
  forall w,
    let w' := snd (AppVue.poll_for n taskId env w) in
    n_clock w' = n_clock w /\
    projectData (st w') = projectData (st w) /\
    currentTaskId (st w') = currentTaskId (st w) /\
    loading (st w') = loading (st w) /\
    generatedResult (st w') = generatedResult (st w).
Proof.
  induction n as [|n IH]; intros w.
  - cbn. auto.
  - cbv zeta. rewrite poll_for_step.
    pose proof (poll_body_frame w) as F. cbv zeta in F.
    destruct (AppVue.poll_body taskId env w) as [[[|d]|e] w1];
      cbn [snd] in *; auto.
    specialize (IH w1). cbv zeta in IH.
    destruct F as (F1 & F2 & F3 & F4 & F5).
    destruct IH as (I1 & I2 & I3 & I4 & I5).
    repeat split; congruence.
Qed.

(** The requests of the loop are polls of its task, one per turn used. *)
Lemma poll_for_requests (n : nat) :
  forall w,
    exists m,
      m <= n /\
      n_http (snd (AppVue.poll_for n taskId env w)) = n_http w + m /\
      requests (trace (snd (AppVue.poll_for n taskId env w)))
      = requests (trace w) ++ repeat (poll_request taskId) m.
Proof.
  induction n as [|n IH]; intros w.
  - exists 0. cbn. rewrite app_nil_r. auto.
  - rewrite poll_for_step.
    pose proof (poll_body_one_request taskId env w) as [N R].
    destruct (AppVue.poll_body taskId env w) as [[[|d]|e] w1];
      cbn [snd] in *.
    + destruct (IH w1) as (m & Hm & Nm & Rm).
      exists (S m). split; [lia|]. split; [lia|].
      rewrite Rm, R, <- app_assoc. reflexivity.
    + exists 1. split; [lia|]. split; [lia|]. exact R.
    + exists 1. split; [lia|]. split; [lia|]. exact R.
Qed.

(** X1. Whatever the backend answers, [pollGenerateTask] issues nothing but
    polls of its own task, at most 600 of them, and reads no clock. *)
Theorem pollGenerateTask_only_polls (w : world) :
  exists w' r m,
    AppVue.pollGenerateTask taskId env w = (r, w') /\
    m <= 600 /\
    n_http w' = n_http w + m /\
    requests (trace w') = requests (trace w) ++ repeat (poll_request taskId) m /\
    n_clock w' = n_clock w.
Proof.
  destruct (poll_for_requests AppVue.maxPollTimes w) as (m & Hm & N & R).
  pose proof (poll_for_frame AppVue.maxPollTimes w) as F. cbv zeta in F.
  unfold AppVue.pollGenerateTask.
  destruct (AppVue.poll_for AppVue.maxPollTimes taskId env w) as [r w'].
  exists w', r, m. cbn [snd] in *. repeat split; auto. apply F.
Qed.

(** X2. A poll request that is rejected (network error, [404], time-out of
    the request) ends the polling at once: the rejection is thrown on as it
    is, with no retry and no sleep after it; rejected on the first poll, it
    leaves every ref as it was. *)
Theorem rejected_poll_aborts
        (w : world) (k : nat) (d : value) (m : string) :
  k < 600 ->
  keeps_waiting env taskId (n_http w) k ->
  respond env (n_http w + k) (poll_request taskId) = HttpErr d m ->
  exists w',
    AppVue.pollGenerateTask taskId env w = (Throw (AxiosError d m), w') /\
    trace w' = trace w ++ concat (repeat (waiting_turn taskId) k)
                       ++ [EHttp (poll_request taskId)] /\
    n_http w' = n_http w + S k /\
    slept (trace w') = (slept (trace w) + 2000 * N.of_nat k)%N /\
    (k = 0 -> st w' = st w).
Proof.
  intros Hk Hw Hd.
  destruct (pollGenerateTask_reaches w Hk Hw) as (w1 & Hreach & T1 & N1 & _).
  rewrite <- N1 in Hd.
  pose proof (poll_body_rejected taskId env w1 Hd) as Hb.
  eexists. split; [now rewrite Hreach, poll_for_step, Hb|].
  cbn [trace n_http st]. split; [now rewrite T1, app_assoc|].
  split; [lia|]. split.
  - rewrite T1, !slept_app, slept_waiting_turns. cbn. lia.
  - intros ->.
    assert (E : AppVue.pollGenerateTask taskId env w
                = (Throw (AxiosError d m),
                   {| st := st w;
                      trace := trace w ++ [EHttp (poll_request taskId)];
                      n_http := S (n_http w); n_clock := n_clock w |})).
    { assert (Hd0 : respond env (n_http w) (poll_request taskId) = HttpErr d m)
        by (rewrite <- Hd, N1; f_equal; lia).
      unfold AppVue.pollGenerateTask, AppVue.maxPollTimes.
      now rewrite poll_for_step, (poll_body_rejected taskId env w Hd0). }
    rewrite Hreach, poll_for_step, Hb in E. now injection E as ->.
Qed.

(** X3. A truthy status that is not a string (a number, [true]) has no
    [toUpperCase]: the turn throws a [TypeError] before it touches the task
    list, the indicator or the status text, and the polling ends there. *)
Theorem non_string_status_throws_type_error (w : world) (data : Resp.t) :
  respond env (n_http w) (poll_request taskId) = HttpOk data ->
  truthy (Resp.status data) = true ->
  (forall s, Resp.status data <> VStr s) ->
  AppVue.pollGenerateTask taskId env w
  = (Throw (TypeError (notAFunction "toUpperCase")),
     {| st := st w; trace := trace w ++ [EHttp (poll_request taskId)];
        n_http := S (n_http w); n_clock := n_clock w |}).
Proof.
  intros Hd Ht Hns.
  unfold AppVue.pollGenerateTask, AppVue.maxPollTimes.
  rewrite poll_for_step, (poll_body_type_error taskId env w Hd); [reflexivity|].
  unfold status_of, or_else. rewrite Ht.
  destruct (Resp.status data) as [| | | |s]; try reflexivity.
  now destruct (Hns s).
Qed.

End PollAnyBackend.

Section PollTurnState.
Context `{Runtime}.
Variables (taskId : value) (env : backend) (w : world) (data : Resp.t).
Hypothesis answer : respond env (n_http w) (poll_request taskId) = HttpOk data.

(** X4. What a turn shows on the loading indicator.  On success the
    indicator is exactly 100; on every other turn that gets past the status
    (waiting or failing) it is exactly [Math.max(0, Math.min(100,
    progress))] for the progress of the answer.  Hence, when that progress
    is a number (not [NaN]), the indicator lies between 0 and 100 whatever
    the status. *)
Theorem indicator_is_the_clamped_progress (s : string) :
  status_of data = Some s ->
  let progress := Number (nullish (Resp.progress data) (VNum 0)) in
  let shown := loadingPercent (st (snd (AppVue.poll_body taskId env w))) in
  (s = "SUCCESS" -> shown = 100%float) /\
  (s <> "SUCCESS" -> shown = Math_max 0 (Math_min 100 progress)) /\
  (PrimFloat.is_nan progress = false ->
   PrimFloat.leb 0 shown = true /\ PrimFloat.leb shown 100 = true).
Proof.
  intros Hs. cbv zeta.
  destruct (@status_of_inv _ data s Hs) as (s0 & E & Hup).
  unfold AppVue.poll_body, bind, axios. fold (poll_request taskId).
  rewrite answer, E.
  cbn [call_toUpperCase ret AppVue.upsertTask modify]. rewrite Hup.
  split; [|split].
  - intros ->. cbn [String.eqb Ascii.eqb Bool.eqb]. reflexivity.
  - intros Hne.
    destruct (s =? "SUCCESS") eqn:E3;
      [apply String.eqb_eq in E3; contradiction|].
    repeat match goal with
           | |- context [if ?b then _ else _] => destruct b
           end; reflexivity.
  - intros Hnum.
    repeat match goal with
           | |- context [if ?b then _ else _] => destruct b
           end;
      cbn [snd sleep emit ret throw bind modify st set_loadingPercent
           set_loadingStatusText set_taskList loadingPercent];
      try (apply clamp_range; exact Hnum);
      split; reflexivity.
Qed.

(** X5. Missing fields of an answer read as defaults on a waiting turn: a
    missing (or [null]) progress is recorded as 0 and shows 0, a missing or
    empty stage is recorded as the empty string and shows the placeholder
    text. *)
Theorem missing_fields_read_as_defaults (s : string) :
  status_of data = Some s ->
  s <> "SUCCESS" -> s <> "FAILED" -> s <> "CANCELED" ->
  Resp.progress data = VUndefined \/ Resp.progress data = VNull ->
  truthy (Resp.stage data) = false ->
  exists w' i,
    AppVue.poll_body taskId env w = (Ret AppVue.Continue, w') /\
    nth_error (taskList (st w')) i
    = Some (Task.make taskId (VNum 0) (VStr "") (VStr s)) /\
    loadingPercent (st w') = 0%float /\
    loadingStatusText (st w') = VStr "处理中...".
Proof.
  intros Hs N1 N2 N3 Hp Hst.
  destruct (@status_of_inv _ data s Hs) as (s0 & E & Hup).
  assert (Hprog : Number (nullish (Resp.progress data) (VNum 0)) = 0%float)
    by (destruct Hp as [-> | ->]; reflexivity).
  assert (Hstage : or_else (Resp.stage data) (VStr "") = VStr "")
    by (unfold or_else; now rewrite Hst).
  destruct (upsertTask_on_entry taskId 0 "" s (taskList (st w))) as (i & Hi).
  unfold AppVue.poll_body, bind, axios. fold (poll_request taskId).
  rewrite answer, E, Hprog, Hstage.
  cbn [call_toUpperCase ret AppVue.upsertTask modify]. rewrite Hup.
  destruct (s =? "PENDING") eqn:E1;
    [|destruct (s =? "RUNNING") eqn:E2;
      [|destruct (s =? "SUCCESS") eqn:E3;
        [apply String.eqb_eq in E3; contradiction
        |destruct (s =? "FAILED") eqn:E4;
         [apply String.eqb_eq in E4; contradiction
         |destruct (s =? "CANCELED") eqn:E5;
          [apply String.eqb_eq in E5; contradiction|]]]]];
    cbn [sleep emit ret st trace n_http n_clock];
    (eexists; exists i; split; [reflexivity|]);
    cbn [st set_loadingPercent set_loadingStatusText set_taskList
         loadingPercent loadingStatusText taskList];
    (split; [exact Hi|]); split; reflexivity.
Qed.

End PollTurnState.

(* ================================================================= *)
(** ** Success: [pollGenerateTask] and [handleGenerate] *)

Section Handlers.
Context `{Runtime}.

Lemma pollGenerateTask_returns_success
      (taskId : value) (env : backend) (w : world) (k : nat) (data : Resp.t) :
  k < 600 ->
  keeps_waiting env taskId (n_http w) k ->
  respond env (n_http w + k) (poll_request taskId) = HttpOk data ->
  status_of data = Some "SUCCESS" ->
  exists w',
    AppVue.pollGenerateTask taskId env w = (Ret data, w') /\
    trace w' = trace w ++ concat (repeat (waiting_turn taskId) k)
                       ++ [EHttp (poll_request taskId)] /\
    n_http w' = n_http w + S k /\
    n_clock w' = n_clock w /\
    loadingPercent (st w') = 100%float /\
    loadingStatusText (st w') = VStr "处理完成" /\
    (exists i, nth_error (taskList (st w')) i
               = Some (Task.make taskId (VNum 100) (VStr "处理完成")
                                 (VStr "SUCCESS"))).
Proof.
  intros Hk Hw Hd Hs.
  destruct (pollGenerateTask_reaches w Hk Hw) as (w1 & Hreach & T1 & N1 & C1 & _).
  rewrite <- N1 in Hd.
  destruct (poll_body_success taskId env w1 Hd Hs)
    as (w' & Hb & T & N & C & LP & LT & Hentry & _).
  exists w'. split; [now rewrite Hreach, poll_for_step, Hb|].
  split; [now rewrite T, T1, app_assoc|].
  repeat split; auto; try lia; congruence.
Qed.

Lemma truthy_VStr (s : string) : s <> "" -> truthy (VStr s) = true.
Proof.
  intros Hne. simpl. destruct (s =? "") eqn:E; [|reflexivity].
  apply String.eqb_eq in E. contradiction.
Qed.

(** [handleGenerate] with a filled form and an accepted creation: it calls
    [pollGenerateTask] once, after one request and two clock readings, and
    records what the call returns. *)
Lemma handleGenerate_polls (env : backend) (w : world) (created : Resp.t) :
  url (projectData (st w)) <> "" ->
  prompt (projectData (st w)) <> "" ->
  respond env (n_http w)
          (create_request (projectData (st w)) (Date_getTime env (n_clock w)))
  = HttpOk created ->
  truthy (Resp.taskId created) = true ->
  exists w2,
    n_http w2 = S (n_http w) /\
    n_clock w2 = S (S (n_clock w)) /\
    forall data w3,
      AppVue.pollGenerateTask (Resp.taskId created) env w2 = (Ret data, w3) ->
      exists w',
        AppVue.handleGenerate env w = (Ret tt, w') /\
        generatedResult (st w')
        = Some {| res_code := nullish (Resp.code data) (VNum 200);
                  res_processTime :=
                    nullish (Resp.processTime data)
                            (measured_duration
                               (performance_now env (S (n_clock w)))
                               (performance_now env (n_clock w3)));
                  res_content := nullish (Resp.content data) (VStr "") |} /\
        loading (st w') = false /\
        currentTaskId (st w') = VStr "" /\
        loadingPercent (st w') = loadingPercent (st w3) /\
        taskList (st w') = taskList (st w3) /\
        trace w' = trace w3.
Proof.
  intros Hu Hp Hc Ht.
  unfold AppVue.handleGenerate, bind, get_state.
  rewrite (truthy_VStr Hu), (truthy_VStr Hp).
  cbn [negb modify read_clock emit st trace n_http n_clock].
  unfold finally, try_catch, bind, axios, modify.
  cbn [st trace n_http n_clock set_loading set_loadingPercent
       set_generatedResult set_loadingStatusText projectData].
  fold (payload_of (projectData (st w)) (Date_getTime env (n_clock w))).
  fold (create_request (projectData (st w)) (Date_getTime env (n_clock w))).
  rewrite Hc, Ht.
  cbn [negb AppVue.upsertTask modify st trace n_http n_clock].
  match goal with
  | |- context [AppVue.pollGenerateTask _ env ?w2] => exists w2
  end.
  split; [reflexivity|]. split; [reflexivity|].
  intros data w3 Hpoll. rewrite Hpoll.
  eexists. split; [reflexivity|].
  repeat split.
Qed.

(** C5. On the first answer that reads [SUCCESS], [pollGenerateTask]
    stops polling, forces the indicator and the task's entry to 100 and
    returns that answer; [handleGenerate] then records a result whose
    content is the answer's content, or the empty string when it has none,
    and whose [processTime] is the answer's, or the duration the client
    measured when it has none. *)
Theorem success_is_returned_and_recorded :
  (forall taskId env w k data,
     k < 600 ->
     keeps_waiting env taskId (n_http w) k ->
     respond env (n_http w + k) (poll_request taskId) = HttpOk data ->
     status_of data = Some "SUCCESS" ->
     exists w',
       AppVue.pollGenerateTask taskId env w = (Ret data, w') /\
       requests (trace w')
       = requests (trace w) ++ repeat (poll_request taskId) (S k) /\
       n_http w' = n_http w + S k /\
       loadingPercent (st w') = 100%float /\
       (exists i, nth_error (taskList (st w')) i
                  = Some (Task.make taskId (VNum 100) (VStr "处理完成")
                                    (VStr "SUCCESS")))) /\
  (forall env w created k data,
     url (projectData (st w)) <> "" ->
     prompt (projectData (st w)) <> "" ->
     respond env (n_http w)
             (create_request (projectData (st w))
                             (Date_getTime env (n_clock w)))
     = HttpOk created ->
     truthy (Resp.taskId created) = true ->
     k < 600 ->
     keeps_waiting env (Resp.taskId created) (S (n_http w)) k ->
     respond env (S (n_http w) + k) (poll_request (Resp.taskId created))
     = HttpOk data ->
     status_of data = Some "SUCCESS" ->
     exists w',
       AppVue.handleGenerate env w = (Ret tt, w') /\
       generatedResult (st w')
       = Some {| res_code := nullish (Resp.code data) (VNum 200);
                 res_processTime :=
                   nullish (Resp.processTime data)
                           (measured_duration
                              (performance_now env (S (n_clock w)))
                              (performance_now env (S (S (n_clock w)))));
                 res_content := nullish (Resp.content data) (VStr "") |} /\
       loadingPercent (st w') = 100%float /\
       loading (st w') = false).
Proof.
  split.
  - intros taskId env w k data Hk Hw Hd Hs.
    destruct (pollGenerateTask_returns_success w Hk Hw Hd Hs)
      as (w' & Hrun & T & N & _ & LP & _ & Hentry).
    exists w'. repeat split; auto.
    rewrite T, !requests_app, requests_waiting_turns.
    cbn [requests]. f_equal.
    clear. induction k as [|k IH]; simpl; [reflexivity|].
    now rewrite IH.
  - intros env w created k data Hu Hp Hc Ht Hk Hw Hd Hs.
    destruct (handleGenerate_polls env w Hu Hp Hc Ht)
      as (w2 & N2 & C2 & Hrest).
    rewrite <- N2 in Hw, Hd.
    destruct (pollGenerateTask_returns_success w2 Hk Hw Hd Hs)
      as (w3 & Hrun & _ & _ & C3 & LP & _).
    destruct (Hrest data w3 Hrun) as (w' & Hg & R & L & _ & LP' & _).
    exists w'. split; [exact Hg|]. rewrite R, C3, C2, LP', LP. auto.
Qed.

(** C3. With an empty link or an empty prompt [handleGenerate] issues no
    request: it shows one warning, changes nothing else and returns. *)
Theorem handleGenerate_requires_url_and_prompt (env : backend) (w : world) :
  url (projectData (st w)) = "" \/ prompt (projectData (st w)) = "" ->
  exists w' text,
    AppVue.handleGenerate env w = (Ret tt, w') /\
    trace w' = trace w ++ [EMessage MsgWarning (VStr text)] /\
    requests (trace w') = requests (trace w) /\
    n_http w' = n_http w /\
    st w' = st w.
Proof.
  intros Hempty. unfold AppVue.handleGenerate, bind, get_state.
  destruct (string_dec (url (projectData (st w))) "") as [Eu | Nu].
  - rewrite Eu. simpl. do 2 eexists. split; [reflexivity|]. simpl.
    rewrite requests_app, app_nil_r. auto.
  - destruct Hempty as [Eu | Ep]; [contradiction|].
    rewrite (truthy_VStr Nu), Ep. simpl.
    do 2 eexists. split; [reflexivity|]. simpl.
    rewrite requests_app, app_nil_r. auto.
Qed.

(** C7. [handleCancel] always completes normally and leaves the refs as
    they are.  With no current task id it does nothing at all; otherwise it
    posts exactly one cancel request, for the current task id, and an error
    of that request ends up in a message and nowhere else. *)
Theorem handleCancel_never_raises (env : backend) (w : world) :
  exists w',
    AppVue.handleCancel env w = (Ret tt, w') /\
    st w' = st w /\
    (truthy (currentTaskId (st w)) = false -> w' = w) /\
    (truthy (currentTaskId (st w)) = true ->
     let req := PostCancel (currentTaskId (st w)) 10000 in
     requests (trace w') = requests (trace w) ++ [req] /\
     n_http w' = S (n_http w) /\
     (forall data, respond env (n_http w) req = HttpOk data ->
        trace w' = trace w ++ [EHttp req;
                               EMessage MsgSuccess (VStr "已发送取消请求")]) /\
     (forall d m, respond env (n_http w) req = HttpErr d m ->
        trace w' = trace w ++ [EHttp req;
                               EMessage MsgError
                                 (or_else (or_else d (VStr m))
                                          (VStr "取消失败"))])).
Proof.
  unfold AppVue.handleCancel, bind, get_state.
  destruct (truthy (currentTaskId (st w))) eqn:Ht; cbn [negb].
  - unfold try_catch, bind, axios.
    destruct (respond env (n_http w) (PostCancel (currentTaskId (st w)) 10000))
      as [data | d m] eqn:E;
      (eexists; split; [reflexivity|]); cbn [st trace n_http n_clock];
      (split; [reflexivity|]); (split; [discriminate|]); intros _;
      rewrite <- app_assoc, requests_app; cbn [app requests].
    + repeat split; try discriminate.
    + repeat split; try discriminate.
      intros d0 m0 [= <- <-]. reflexivity.
  - exists w. split; [destruct w; reflexivity|].
    split; [reflexivity|]. split; [reflexivity|discriminate].
Qed.

End Handlers.

(* ================================================================= *)
(** ** [handleGenerate]: failures, and what it always does *)

Section GenerateOutcomes.
Context `{Runtime}.

(** What [handleGenerate] shows for an error it caught. *)
Definition shown_error (e : exn) : value :=
  or_else (or_else (response_detail e) (message e)) (VStr "请求出错").

Ltac enter_handleGenerate Hu Hp :=
  unfold AppVue.handleGenerate, bind, get_state;
  rewrite (truthy_VStr Hu), (truthy_VStr Hp);
  cbn [negb modify read_clock emit st trace n_http n_clock];
  unfold finally, try_catch, bind, axios, modify;
  cbn [st trace n_http n_clock set_loading set_loadingPercent
       set_generatedResult set_loadingStatusText projectData];
  match goal with
  | w : world, env : backend |- _ =>
      fold (payload_of (projectData (st w)) (Date_getTime env (n_clock w)));
      fold (create_request (projectData (st w))
                           (Date_getTime env (n_clock w)))
  end.

(** [handleGenerate] once the creation is accepted: the world in which it
    calls [pollGenerateTask], and how it ends for either outcome of the
    call. *)
Lemma handleGenerate_after_create
      (env : backend) (w : world) (created : Resp.t) :
  url (projectData (st w)) <> "" ->
  prompt (projectData (st w)) <> "" ->
  respond env (n_http w)
          (create_request (projectData (st w)) (Date_getTime env (n_clock w)))
  = HttpOk created ->
  truthy (Resp.taskId created) = true ->
  exists w2,
    n_http w2 = S (n_http w) /\
    requests (trace w2)
    = requests (trace w)
      ++ [create_request (projectData (st w)) (Date_getTime env (n_clock w))] /\
    slept (trace w2) = slept (trace w) /\
    generatedResult (st w2) = None /\
    (forall data w3,
       AppVue.pollGenerateTask (Resp.taskId created) env w2 = (Ret data, w3) ->
       exists w',
         AppVue.handleGenerate env w = (Ret tt, w') /\
         trace w' = trace w3 /\
         n_http w' = n_http w3 /\
         loading (st w') = false /\
         currentTaskId (st w') = VStr "") /\
    (forall e w3,
       AppVue.pollGenerateTask (Resp.taskId created) env w2 = (Throw e, w3) ->
       exists w',
         AppVue.handleGenerate env w = (Ret tt, w') /\
         trace w' = trace w3 ++ [EMessage MsgError (shown_error e);
                                 EConsoleError e] /\
         n_http w' = n_http w3 /\
         loading (st w') = false /\
         currentTaskId (st w') = VStr "" /\
         loadingStatusText (st w') = VStr "请求失败" /\
         generatedResult (st w') = generatedResult (st w3) /\
         taskList (st w') = taskList (st w3)).
Proof.
  intros Hu Hp Hc Ht.
  enter_handleGenerate Hu Hp.
  rewrite Hc, Ht.
  cbn [negb AppVue.upsertTask modify st trace n_http n_clock].
  match goal with
  | |- context [AppVue.pollGenerateTask _ env ?w2] => exists w2
  end.
  cbn [n_http trace st set_taskList set_currentTaskId set_loadingStatusText
       set_generatedResult generatedResult].
  split; [reflexivity|].
  split; [rewrite !requests_app; cbn; now rewrite app_nil_r|].
  split; [rewrite !slept_app; cbn; lia|].
  split; [reflexivity|].
  split.
  - intros data w3 Hpoll. rewrite Hpoll.
    eexists. split; [reflexivity|]. repeat split.
  - intros e w3 Hpoll. rewrite Hpoll.
    eexists. split; [reflexivity|].
    cbn. rewrite <- app_assoc. repeat split.
Qed.

(** X8. When the creation request is rejected, [handleGenerate] issues no
    other request: it shows the server's detail, else the error's message,
    else a generic text, logs the error, stores no result, leaves the task
    list as it was and ends with the loading flag off. *)
Theorem handleGenerate_create_rejected
        (env : backend) (w : world) (d : value) (m : string) :
  url (projectData (st w)) <> "" ->
  prompt (projectData (st w)) <> "" ->
  respond env (n_http w)
          (create_request (projectData (st w)) (Date_getTime env (n_clock w)))
  = HttpErr d m ->
  exists w',
    AppVue.handleGenerate env w = (Ret tt, w') /\
    trace w'
    = trace w
      ++ [EConsoleLog (payload_of (projectData (st w))
                                  (Date_getTime env (n_clock w)));
          EHttp (create_request (projectData (st w))
                                (Date_getTime env (n_clock w)));
          EMessage MsgError (or_else (or_else d (VStr m)) (VStr "请求出错"));
          EConsoleError (AxiosError d m)] /\
    n_http w' = S (n_http w) /\
    generatedResult (st w') = None /\
    taskList (st w') = taskList (st w) /\
    loadingStatusText (st w') = VStr "请求失败" /\
    loading (st w') = false /\
    currentTaskId (st w') = VStr "".
Proof.
  intros Hu Hp Hc.
  enter_handleGenerate Hu Hp.
  rewrite Hc.
  eexists. split; [reflexivity|].
  cbn. rewrite <- !app_assoc. repeat split.
Qed.

(** X9. When the creation answer carries no task id (missing, empty, [0],
    [null]), [handleGenerate] does not poll: it reports that the backend
    returned no task id, stores no result and adds no entry to the task
    list. *)
Theorem handleGenerate_missing_taskId
        (env : backend) (w : world) (created : Resp.t) :
  url (projectData (st w)) <> "" ->
  prompt (projectData (st w)) <> "" ->
  respond env (n_http w)
          (create_request (projectData (st w)) (Date_getTime env (n_clock w)))
  = HttpOk created ->
  truthy (Resp.taskId created) = false ->
  exists w',
    AppVue.handleGenerate env w = (Ret tt, w') /\
    requests (trace w')
    = requests (trace w)
      ++ [create_request (projectData (st w)) (Date_getTime env (n_clock w))] /\
    (exists t, trace w' = t ++ [EMessage MsgError (VStr "后端未返回 taskId");
                                EConsoleError (Error "后端未返回 taskId")]) /\
    generatedResult (st w') = None /\
    taskList (st w') = taskList (st w) /\
    loading (st w') = false /\
    currentTaskId (st w') = VStr "".
Proof.
  intros Hu Hp Hc Ht.
  enter_handleGenerate Hu Hp.
  rewrite Hc, Ht.
  eexists. split; [reflexivity|].
  cbn [negb throw ElMessage emit st trace n_http n_clock].
  split; [rewrite !requests_app; cbn; now rewrite !app_nil_r|].
  split; [eexists; rewrite <- app_assoc; reflexivity|].
  cbn. repeat split.
Qed.

Lemma shown_error_message (msg : string) :
  msg <> "" -> shown_error (Error msg) = VStr msg.
Proof.
  intros Hne. unfold shown_error, or_else. cbn [response_detail message truthy].
  destruct (msg =? "") eqn:E; [apply String.eqb_eq in E; contradiction|].
  reflexivity.
Qed.

(** X10. A task that ends [FAILED] or [CANCELED] is reported to the user
    with the server's own detail when it has one, and with the text of that
    branch otherwise; [handleGenerate] stores no result, keeps the task's
    entry with the label of the branch and ends with the loading flag
    off. *)
Theorem handleGenerate_reports_failure
        (env : backend) (w : world) (created data : Resp.t) (k : nat)
        (s : string) :
  url (projectData (st w)) <> "" ->
  prompt (projectData (st w)) <> "" ->
  respond env (n_http w)
          (create_request (projectData (st w)) (Date_getTime env (n_clock w)))
  = HttpOk created ->
  truthy (Resp.taskId created) = true ->
  k < 600 ->
  keeps_waiting env (Resp.taskId created) (S (n_http w)) k ->
  respond env (S (n_http w) + k) (poll_request (Resp.taskId created))
  = HttpOk data ->
  status_of data = Some s ->
  s = "FAILED" \/ s = "CANCELED" ->
  exists w' t shown label fallback,
    (s = "FAILED" /\ label = "处理失败" /\ fallback = "任务执行失败" \/
     s = "CANCELED" /\ label = "任务已取消" /\ fallback = "任务已取消") /\
    AppVue.handleGenerate env w = (Ret tt, w') /\
    trace w' = t ++ [EMessage MsgError shown;
                     EConsoleError
                       (Error (ToString (or_else (Resp.detail data)
                                                 (VStr fallback))))] /\
    (forall d, Resp.detail data = VStr d -> d <> "" -> shown = VStr d) /\
    (truthy (Resp.detail data) = false -> shown = VStr fallback) /\
    n_http w' = n_http w + S (S k) /\
    generatedResult (st w') = None /\
    (exists i, nth_error (taskList (st w')) i
               = Some (Task.make (Resp.taskId created) (VNum 100)
                                 (VStr label) (VStr s))) /\
    loading (st w') = false.
Proof.
  intros Hu Hp Hc Ht Hk Hw Hd Hs Hcase.
  destruct (handleGenerate_after_create env w Hu Hp Hc Ht)
    as (w2 & N2 & _ & _ & G2 & _ & Hthrow).
  rewrite <- N2 in Hw, Hd.
  destruct (pollGenerateTask_reaches w2 Hk Hw) as (w1 & Hreach & _ & N1 & _).
  rewrite <- N1 in Hd.
  assert (Hsel : exists label fallback,
             s = "FAILED" /\ label = "处理失败" /\ fallback = "任务执行失败" \/
             s = "CANCELED" /\ label = "任务已取消" /\ fallback = "任务已取消").
  { destruct Hcase as [-> | ->]; do 2 eexists; [left|right]; eauto. }
  destruct Hsel as (label & fallback & Hsel).
  destruct (poll_body_terminal_error (Resp.taskId created) env w1 Hd Hs Hsel)
    as (w3 & Hb & _ & N3 & _ & Hentry).
  assert (Hrun : AppVue.pollGenerateTask (Resp.taskId created) env w2
                 = (Throw (Error (ToString (or_else (Resp.detail data)
                                                    (VStr fallback)))), w3))
    by now rewrite Hreach, poll_for_step, Hb.
  pose proof (poll_for_frame (Resp.taskId created) env AppVue.maxPollTimes w2)
    as F. cbv zeta in F.
  fold (AppVue.pollGenerateTask (Resp.taskId created) env w2) in F.
  rewrite Hrun in F. cbn [snd] in F. destruct F as (_ & _ & _ & _ & G3).
  destruct (Hthrow _ _ Hrun) as (w' & Hg & T & N & L & _ & _ & G & TL).
  exists w', (trace w3), (shown_error (Error (ToString (or_else (Resp.detail data)
                                                       (VStr fallback))))),
         label, fallback.
  split; [exact Hsel|]. split; [exact Hg|]. split; [exact T|].
  split; [|split; [|split; [|split; [|split]]]].
  - intros d Ed Hne.
    replace (or_else (Resp.detail data) (VStr fallback)) with (VStr d)
      by (unfold or_else; now rewrite Ed, (truthy_VStr Hne)).
    cbn [ToString]. now apply shown_error_message.
  - intros Hf.
    replace (or_else (Resp.detail data) (VStr fallback)) with (VStr fallback)
      by (unfold or_else; now rewrite Hf).
    cbn [ToString]. apply shown_error_message.
    destruct Hsel as [(_ & _ & ->) | (_ & _ & ->)]; discriminate.
  - lia.
  - congruence.
  - rewrite TL. exact Hentry.
  - exact L.
Qed.

(** X11. When the task is still [PENDING] or [RUNNING] after 600 polls,
    [handleGenerate] gives up: it has issued the creation and exactly 600
    polls, slept 20 minutes, shows the client's timeout text, stores no
    result and ends with the loading flag off. *)
Theorem handleGenerate_reports_timeout
        (env : backend) (w : world) (created : Resp.t) :
  url (projectData (st w)) <> "" ->
  prompt (projectData (st w)) <> "" ->
  respond env (n_http w)
          (create_request (projectData (st w)) (Date_getTime env (n_clock w)))
  = HttpOk created ->
  truthy (Resp.taskId created) = true ->
  (forall i, i < 600 ->
     exists d,
       respond env (S (n_http w) + i) (poll_request (Resp.taskId created))
       = HttpOk d /\
       (status_of d = Some "PENDING" \/ status_of d = Some "RUNNING")) ->
  exists w' t,
    AppVue.handleGenerate env w = (Ret tt, w') /\
    trace w' = t ++ [EMessage MsgError (VStr "任务轮询超时，请稍后重试");
                     EConsoleError (Error "任务轮询超时，请稍后重试")] /\
    requests (trace w')
    = requests (trace w)
      ++ create_request (projectData (st w)) (Date_getTime env (n_clock w))
      :: repeat (poll_request (Resp.taskId created)) 600 /\
    slept (trace w') = (slept (trace w) + 20 * 60 * 1000)%N /\
    generatedResult (st w') = None /\
    loading (st w') = false.
Proof.
  intros Hu Hp Hc Ht Hpolls.
  destruct (handleGenerate_after_create env w Hu Hp Hc Ht)
    as (w2 & N2 & R2 & S2 & G2 & _ & Hthrow).
  rewrite <- N2 in Hpolls.
  apply waiting_statuses_keep_waiting in Hpolls.
  destruct (poll_for_waits 0 w2 Hpolls) as (w3 & Hloop & T3 & _).
  rewrite Nat.add_0_r in Hloop.
  change (AppVue.poll_for 600 (Resp.taskId created) env w2)
    with (AppVue.pollGenerateTask (Resp.taskId created) env w2) in Hloop.
  cbn [AppVue.poll_for] in Hloop. unfold throw in Hloop.
  pose proof (poll_for_frame (Resp.taskId created) env AppVue.maxPollTimes w2)
    as F. cbv zeta in F.
  fold (AppVue.pollGenerateTask (Resp.taskId created) env w2) in F.
  rewrite Hloop in F. cbn [snd] in F. destruct F as (_ & _ & _ & _ & G3).
  destruct (Hthrow _ _ Hloop) as (w' & Hg & T & _ & L & _ & _ & G & _).
  exists w', (trace w3). split; [exact Hg|]. split; [exact T|].
  split; [|split; [|split]].
  - rewrite T, requests_app, T3, requests_app, requests_waiting_turns, R2.
    cbn [requests]. rewrite app_nil_r, <- app_assoc. reflexivity.
  - rewrite T, slept_app, T3, slept_app, slept_waiting_turns, S2. cbn. lia.
  - congruence.
  - exact L.
Qed.

(** What [handleGenerate] always does once the form is filled. *)
Lemma handleGenerate_filled (env : backend) (w : world) :
  url (projectData (st w)) <> "" ->
  prompt (projectData (st w)) <> "" ->
  exists w' taskId polls,
    AppVue.handleGenerate env w = (Ret tt, w') /\
    loading (st w') = false /\
    currentTaskId (st w') = VStr "" /\
    polls <= 600 /\
    requests (trace w')
    = requests (trace w)
      ++ create_request (projectData (st w)) (Date_getTime env (n_clock w))
      :: repeat (poll_request taskId) polls.
Proof.
  intros Hu Hp.
  destruct (respond env (n_http w)
              (create_request (projectData (st w))
                              (Date_getTime env (n_clock w))))
    as [created | d m] eqn:Hc.
  - destruct (truthy (Resp.taskId created)) eqn:Ht.
    + destruct (handleGenerate_after_create env w Hu Hp Hc Ht)
        as (w2 & N2 & R2 & _ & _ & Hret & Hthrow).
      destruct (poll_for_requests (Resp.taskId created) env
                                  AppVue.maxPollTimes w2)
        as (m & Hm & _ & Rm).
      fold (AppVue.pollGenerateTask (Resp.taskId created) env w2) in Rm.
      destruct (AppVue.pollGenerateTask (Resp.taskId created) env w2)
        as [[data|e] w3] eqn:Hpoll; cbn [snd] in Rm.
      * destruct (Hret _ _ eq_refl) as (w' & Hg & T & _ & L & C).
        exists w', (Resp.taskId created), m.
        repeat split; auto.
        rewrite T, Rm, R2, <- app_assoc. reflexivity.
      * destruct (Hthrow _ _ eq_refl) as (w' & Hg & T & _ & L & C & _).
        exists w', (Resp.taskId created), m.
        repeat split; auto.
        rewrite T, requests_app, Rm, R2. cbn [requests].
        rewrite app_nil_r, <- app_assoc. reflexivity.
    + enter_handleGenerate Hu Hp. rewrite Hc, Ht.
      eexists. exists VUndefined, 0. split; [reflexivity|].
      cbn. repeat split; [lia|].
      rewrite !requests_app. cbn. now rewrite !app_nil_r.
  - enter_handleGenerate Hu Hp. rewrite Hc.
    eexists. exists VUndefined, 0. split; [reflexivity|].
    cbn. repeat split; [lia|].
    rewrite !requests_app. cbn. now rewrite !app_nil_r.
Qed.

(** X12. [handleGenerate] never raises, whatever the backend does.  Once
    the form is filled it ends with the loading flag off and no current
    task id, and its requests are one creation followed by at most 600
    polls of one task: it never sends a cancel request and never creates
    twice. *)
Theorem handleGenerate_always_completes (env : backend) (w : world) :
  exists w',
    AppVue.handleGenerate env w = (Ret tt, w') /\
    (url (projectData (st w)) <> "" ->
     prompt (projectData (st w)) <> "" ->
     loading (st w') = false /\
     currentTaskId (st w') = VStr "" /\
     exists taskId polls,
       polls <= 600 /\
       requests (trace w')
       = requests (trace w)
         ++ create_request (projectData (st w)) (Date_getTime env (n_clock w))
         :: repeat (poll_request taskId) polls).
Proof.
  destruct (string_dec (url (projectData (st w))) "") as [Eu | Nu].
  - unfold AppVue.handleGenerate, bind, get_state. rewrite Eu.
    eexists. split; [reflexivity|]. intros Hu. now destruct Hu.
  - destruct (string_dec (prompt (projectData (st w))) "") as [Ep | Np].
    + unfold AppVue.handleGenerate, bind, get_state.
      rewrite (truthy_VStr Nu), Ep.
      eexists. split; [reflexivity|]. intros _ Hp. now destruct Hp.
    + destruct (handleGenerate_filled env w Nu Np)
        as (w' & tid & m & Hg & L & C & Hm & R).
      exists w'. split; [exact Hg|]. intros _ _. eauto 8.
Qed.

(** X13. Cancelling after [handleGenerate] has finished does nothing: the
    current task id was cleared, so [handleCancel] issues no request and
    shows no message. *)
Theorem cancel_after_generate_does_nothing (env : backend) (w : world) :
  url (projectData (st w)) <> "" ->
  prompt (projectData (st w)) <> "" ->
  bind AppVue.handleGenerate (fun _ => AppVue.handleCancel) env w
  = AppVue.handleGenerate env w.
Proof.
  intros Hu Hp.
  destruct (handleGenerate_filled env w Hu Hp) as (w' & _ & _ & Hg & _ & C & _).
  unfold bind. rewrite Hg.
  unfold AppVue.handleCancel, bind, get_state. rewrite C. reflexivity.
Qed.

End GenerateOutcomes.

(* ================================================================= *)
(** ** The two versions of the component *)

Section Versions.
Context `{Runtime}.

Definition turn_of (t : Part000.turn) : AppVue.turn :=
  match t with
  | Part000.Continue => AppVue.Continue
  | Part000.Return data => AppVue.Return data
  end.

Lemma upsertTask_on_agree (patch : Patch.t) (l : list Task.t) :
  Part000.upsertTask_on patch l = AppVue.upsertTask_on patch l.
Proof. reflexivity. Qed.

Lemma poll_body_agree (taskId : value) (env : backend) (w : world) :
  match Part000.poll_body taskId env w with
  | (Ret t, w') => (Ret (turn_of t), w')
  | (Throw e, w') => (Throw e, w')
  end = AppVue.poll_body taskId env w.
Proof.
  unfold Part000.poll_body, AppVue.poll_body, bind.
  destruct (axios (GetTask taskId 15000) env w) as [[data|e] w1];
    [|reflexivity].
  destruct (call_toUpperCase (or_else (Resp.status data) (VStr "")) env w1)
    as [[s|e] w2]; [|reflexivity].
  change (Part000.upsertTask) with (AppVue.upsertTask).
  change (Part000.patch_of) with (AppVue.patch_of).
  destruct (AppVue.upsertTask _ env w2) as [[[]|e] w3]; [|reflexivity].
  cbn [modify].
  repeat match goal with
         | |- context [if ?b then _ else _] => destruct b
         end; reflexivity.
Qed.

Lemma poll_for_agree (n : nat) (taskId : value) (env : backend) :
  forall w, Part000.poll_for n taskId env w = AppVue.poll_for n taskId env w.
Proof.
  induction n as [|n IH]; intros w.
  - reflexivity.
  - cbn [Part000.poll_for AppVue.poll_for]. unfold bind.
    rewrite <- (poll_body_agree taskId env w).
    destruct (Part000.poll_body taskId env w) as [[[|data]|e] w'];
      cbn [turn_of]; auto.
Qed.

Lemma pollGenerateTask_agree (taskId : value) (env : backend) (w : world) :
  Part000.pollGenerateTask taskId env w = AppVue.pollGenerateTask taskId env w.
Proof. apply poll_for_agree. Qed.

(** Two computations that agree on every backend and world can replace one
    another under the monad's combinators. *)
Lemma bind_agree {A B} (m : M A) (k1 k2 : A -> M B) (env : backend) (w : world) :
  (forall a env' w', k1 a env' w' = k2 a env' w') ->
  bind m k1 env w = bind m k2 env w.
Proof.
  intros Hk. unfold bind. destruct (m env w) as [[a|e] w']; auto.
Qed.

Lemma try_catch_agree {A} (b1 b2 : M A) (h : exn -> M A)
      (env : backend) (w : world) :
  (forall env' w', b1 env' w' = b2 env' w') ->
  try_catch b1 h env w = try_catch b2 h env w.
Proof. intros Hb. unfold try_catch. now rewrite Hb. Qed.

Lemma finally_agree {A} (b1 b2 : M A) (f : M unit)
      (env : backend) (w : world) :
  (forall env' w', b1 env' w' = b2 env' w') ->
  finally b1 f env w = finally b2 f env w.
Proof. intros Hb. unfold finally. now rewrite Hb. Qed.

Lemma handleGenerate_agree (env : backend) (w : world) :
  Part000.handleGenerate env w = AppVue.handleGenerate env w.
Proof.
  unfold Part000.handleGenerate, AppVue.handleGenerate.
  apply bind_agree. intros s env1 w1.
  destruct (negb (truthy (VStr (url (projectData s))))); [reflexivity|].
  destruct (negb (truthy (VStr (prompt (projectData s))))); [reflexivity|].
  repeat (apply bind_agree; intros).
  apply finally_agree. intros env2 w2.
  apply try_catch_agree. intros env3 w3.
  repeat (apply bind_agree; intros).
  match goal with
  | |- (if ?b then _ else _) _ _ = _ => destruct b; [reflexivity|]
  end.
  apply bind_agree. intros _ env4 w4.
  apply bind_agree. intros _ env5 w5.
  unfold bind. rewrite pollGenerateTask_agree. reflexivity.
Qed.

(** C8. The two versions of the component agree on the orchestration:
    [upsertTask], [pollGenerateTask], [handleCancel] and [handleGenerate]
    of [src/unnamed/part_000] compute, on every input and for every
    sequence of answers of the backend, the result, state and trace their
    counterparts of [App.vue] compute. *)
Theorem component_versions_agree :
  (forall patch env w,
     Part000.upsertTask patch env w = AppVue.upsertTask patch env w) /\
  (forall taskId env w,
     Part000.pollGenerateTask taskId env w
     = AppVue.pollGenerateTask taskId env w) /\
  (forall env w, Part000.handleCancel env w = AppVue.handleCancel env w) /\
  (forall env w, Part000.handleGenerate env w = AppVue.handleGenerate env w).
Proof.
  split; [|split; [|split]].
  - reflexivity.
  - apply pollGenerateTask_agree.
  - reflexivity.
  - apply handleGenerate_agree.
Qed.

End Versions.

(* ================================================================= *)
(** ** [resetFlow], the editor's helpers and the tunnel script *)

Section ResetFlow.
Context `{Runtime}.

(** X14. After [resetFlow] the form is empty again: [handleGenerate] then
    only warns about the missing link and issues no request.  [resetFlow]
    clears the stored result and the two inputs and keeps the task list and
    the other fields of the form. *)
Theorem resetFlow_then_generate_only_warns (env : backend) (w : world) :
  exists w',
    bind Form.resetFlow (fun _ => AppVue.handleGenerate) env w = (Ret tt, w') /\
    trace w' = trace w ++ [EMessage MsgWarning (VStr "请先输入视频链接")] /\
    n_http w' = n_http w /\
    generatedResult (st w') = None /\
    taskList (st w') = taskList (st w) /\
    projectData (st w')
    = assign_prompt "" (assign_url "" (projectData (st w))) /\
    title (projectData (st w')) = title (projectData (st w)) /\
    engine (projectData (st w')) = engine (projectData (st w)).
Proof.
  eexists. split; [reflexivity|]. cbn. repeat split.
Qed.

End ResetFlow.

Module EditorFacts.
Import Editor.

(** The commands among the effects. *)
Fixpoint commands (l : list effect) : list command :=
  match l with
  | [] => []
  | Run c :: l' => c :: commands l'
  | _ :: l' => commands l'
  end.

(** A command that carries what the user or the backend supplied carries
    something: no empty link, image address, colour or content. *)
Definition well_formed (c : command) : Prop :=
  match c with
  | SetLink href => href <> ""
  | SetImage src => src <> ""
  | SetColor color => truthy color = true
  | SetContent html _ => html <> ""
  | UnsetLink | Destroy => True
  end.

(** X15. The editor's helpers are guarded.  Without an editor none of them
    does anything, not even prompt.  With one, each runs at most one
    command, and never a link, an image, a colour or a content that is
    empty: an empty answer to the link prompt removes the link, a
    cancelled prompt changes nothing, and empty generated content shows
    the placeholder. *)
Theorem editor_helpers_are_guarded
        (ed : option editor) (answer : prompt_answer) (v : value) :
  let runs := [setLink ed answer; unsetLink ed; addImageByUrl ed answer;
               setTextColor ed v; on_content_change ed v;
               on_before_unmount ed] in
  (ed = None -> forall out, In out runs -> out = []) /\
  (forall out, In out runs ->
     length (commands out) <= 1 /\
     forall c, In c (commands out) -> well_formed c) /\
  (forall e preset,
     ed = Some e -> preset = or_else (link_href e) (VStr "https://") ->
     (answer "请输入链接地址" preset = None ->
      commands (setLink ed answer) = []) /\
     (answer "请输入链接地址" preset = Some "" ->
      commands (setLink ed answer) = [UnsetLink]) /\
     (forall url, answer "请输入链接地址" preset = Some url -> url <> "" ->
      commands (setLink ed answer) = [SetLink url])).
Proof.
  cbv zeta. split; [|split].
  - intros -> out Hin. unfold setTextColor in Hin. cbn in Hin.
    destruct (truthy v); cbn in Hin;
      decompose [or] Hin; subst; try reflexivity; contradiction.
  - intros out Hin.
    assert (Hne : forall s, (s =? "") = false -> s <> "")
      by (intros s E ->; discriminate).
    cbn [In] in Hin.
    destruct Hin as [<- | [<- | [<- | [<- | [<- | [<- | []]]]]]].
    + unfold setLink. destruct ed as [e|]; cbn; [|split; [lia|tauto]].
      destruct (answer _ _) as [url|]; cbn; [|split; [lia|tauto]].
      destruct (url =? "") eqn:E; cbn; (split; [lia|]);
        intros c [<- | []]; cbn; auto.
    + destruct ed; cbn; (split; [lia|]); [intros c [<- | []]; exact I|tauto].
    + unfold addImageByUrl. destruct ed as [e|]; cbn; [|split; [lia|tauto]].
      destruct (answer _ _) as [url|]; cbn; [|split; [lia|tauto]].
      destruct (url =? "") eqn:E; cbn; (split; [lia|]);
        [tauto | intros c [<- | []]; cbn; auto].
    + unfold setTextColor. destruct (truthy v) eqn:Tv; cbn;
        [|split; [lia|tauto]].
      destruct ed; cbn; (split; [lia|]); [|tauto].
      intros c [<- | []]. exact Tv.
    + unfold on_content_change. destruct ed as [e|]; [|cbn; split; [lia|tauto]].
      destruct v as [| | | |s]; cbn; try (split; [lia|tauto]).
      split; [lia|]. intros c [<- | []]. cbn.
      destruct (s =? "") eqn:E; [discriminate|auto].
    + destruct ed; cbn; (split; [lia|]); [intros c [<- | []]; exact I|tauto].
  - intros e preset -> ->. unfold setLink. cbn [link_href].
    split; [|split].
    + intros ->. reflexivity.
    + intros ->. reflexivity.
    + intros url -> Hne. cbn.
      destruct (url =? "") eqn:E; [apply String.eqb_eq in E; contradiction|].
      reflexivity.
Qed.

(** An item the paste handler takes: an image that yields a file. *)
Definition pastable (it : item) : Prop :=
  String.prefix "image/" (item_type it) = true /\ getAsFile it <> None.

Lemma pastable_dec (it : item) : {pastable it} + {~ pastable it}.
Proof.
  unfold pastable.
  destruct (String.prefix "image/" (item_type it));
    destruct (getAsFile it); [left|right|right|right];
    try (split; [reflexivity|discriminate]); intros [? ?]; congruence.
Qed.

Lemma paste_items_spec (items : list item) :
  (exists before it file after,
      items = before ++ it :: after /\
      (forall x, In x before -> ~ pastable x) /\
      String.prefix "image/" (item_type it) = true /\
      getAsFile it = Some file /\
      paste_items items = (true, [ReadAsDataURL file])) \/
  ((forall x, In x items -> ~ pastable x) /\
   paste_items items = (false, [])).
Proof.
  induction items as [|it rest IH].
  - right. split; [intros x []|reflexivity].
  - cbn [paste_items].
    destruct (String.prefix "image/" (item_type it)) eqn:P.
    + destruct (getAsFile it) as [file|] eqn:G.
      * left. exists [], it, file, rest.
        split; [reflexivity|]. split; [intros x []|]. auto.
      * destruct IH as [(b & it' & f & a & -> & Hb & P' & G' & R) | (Hn & R)].
        -- left. exists (it :: b), it', f, a. repeat split; auto.
           intros x [<- | Hx]; [intros [_ N]; congruence|auto].
        -- right. split; [|exact R].
           intros x [<- | Hx]; [intros [_ N]; congruence|auto].
    + destruct IH as [(b & it' & f & a & -> & Hb & P' & G' & R) | (Hn & R)].
      * left. exists (it :: b), it', f, a. repeat split; auto.
        intros x [<- | Hx]; [intros [N _]; congruence|auto].
      * right. split; [|exact R].
        intros x [<- | Hx]; [intros [N _]; congruence|auto].
Qed.

(** X16. [handlePaste] takes the paste over exactly when the clipboard
    holds an image that yields a file.  It then reads that image only, the
    first one, however many follow; items that are not images, and images
    without a file, are skipped; with nothing to take, or no clipboard
    items at all, it reads nothing and leaves the paste to the editor. *)
Theorem handlePaste_takes_the_first_image (items : option (list item)) :
  (fst (handlePaste items) = true <->
   exists l it, items = Some l /\ In it l /\ pastable it) /\
  (fst (handlePaste items) = false -> snd (handlePaste items) = []) /\
  (fst (handlePaste items) = true ->
   exists l before it file after,
     items = Some l /\
     l = before ++ it :: after /\
     (forall x, In x before -> ~ pastable x) /\
     pastable it /\
     getAsFile it = Some file /\
     snd (handlePaste items) = [ReadAsDataURL file]).
Proof.
  destruct items as [l|]; cbn [handlePaste].
  - destruct (paste_items_spec l)
      as [(b & it & f & a & -> & Hb & P & G & R) | (Hn & R)]; rewrite R; cbn.
    + assert (Hp : pastable it) by (split; [exact P|congruence]).
      split; [|split].
      * split; [|reflexivity]. intros _. exists (b ++ it :: a), it.
        repeat split; try apply Hp. apply in_elt.
      * discriminate.
      * intros _. exists (b ++ it :: a), b, it, f, a. repeat split; auto;
          apply Hp.
    + split; [|split].
      * split; [discriminate|].
        intros (l' & it & [= <-] & Hin & Hp). now destruct (Hn it Hin).
      * reflexivity.
      * discriminate.
  - cbn. split; [|split].
    + split; [discriminate|]. intros (l & it & E & _). discriminate.
    + reflexivity.
    + discriminate.
Qed.

End EditorFacts.

Module TunnelFacts.
Import Tunnel.

Lemma or_default_nonempty (arg : option string) (word : string) :
  word <> "" -> or_default arg word <> "".
Proof.
  intros Hw. unfold or_default. destruct arg as [s|]; [|exact Hw].
  destruct (s =? "") eqn:E; [exact Hw|].
  intros ->. discriminate.
Qed.

(** X17. The tunnel script never starts a tunnel without [cloudflared]: it
    prints the two lines of the installation hint and exits with status 1.
    Otherwise it prints four lines and replaces itself by [env], which
    removes each of the eight proxy variables and runs [cloudflared tunnel]
    for the address [http://HOST:PORT] announced on the first line; the
    port is the first argument and the host the second, and a missing or
    empty argument is replaced by [8000] and [127.0.0.1], so neither is
    ever empty. *)
Theorem start_tunnel_behaviour (args : list string) :
  start_tunnel args false
  = (["cloudflared not found. Install it first:";
      "  brew install cloudflared"], Exit 1) /\
  (exists port host,
     port = or_default (nth_error args 0) "8000" /\
     host = or_default (nth_error args 1) "127.0.0.1" /\
     port <> "" /\ host <> "" /\
     (nth_error args 0 = None \/ nth_error args 0 = Some "" ->
      port = "8000") /\
     (nth_error args 1 = None \/ nth_error args 1 = Some "" ->
      host = "127.0.0.1") /\
     (forall p, nth_error args 0 = Some p -> p <> "" -> port = p) /\
     (forall h, nth_error args 1 = Some h -> h <> "" -> host = h) /\
     start_tunnel args true
     = ([("Starting quick tunnel for http://" ++ host ++ ":" ++ port)%string;
         "After startup, copy the https://*.trycloudflare.com URL.";
         "Then export PUBLIC_BASE_URL to that URL before starting backend.";
         ""],
        Exec ["env";
              "-u"; "http_proxy"; "-u"; "https_proxy"; "-u"; "all_proxy";
              "-u"; "HTTP_PROXY"; "-u"; "HTTPS_PROXY"; "-u"; "ALL_PROXY";
              "-u"; "no_proxy"; "-u"; "NO_PROXY";
              "cloudflared"; "tunnel"; "--protocol"; "http2";
              "--edge-ip-version"; "4"; "--url";
              ("http://" ++ host ++ ":" ++ port)%string])).
Proof.
  split; [reflexivity|].
  exists (or_default (nth_error args 0) "8000"),
         (or_default (nth_error args 1) "127.0.0.1").
  split; [reflexivity|]. split; [reflexivity|].
  split; [apply or_default_nonempty; discriminate|].
  split; [apply or_default_nonempty; discriminate|].
  split; [intros [-> | ->]; reflexivity|].
  split; [intros [-> | ->]; reflexivity|].
  split; [|split].
  - intros p -> Hp. cbn. destruct (p =? "") eqn:E; [|reflexivity].
    apply String.eqb_eq in E. contradiction.
  - intros h -> Hh. cbn. destruct (h =? "") eqn:E; [|reflexivity].
    apply String.eqb_eq in E. contradiction.
  - reflexivity.
Qed.

End TunnelFacts.

(* ================================================================= *)
(** ** Closed examples *)

#[local] Existing Instance example_runtime.

Lemma unique_ids_nil : unique_ids [].
Proof. intros [|i] j a b Ha; discriminate. Qed.

Lemma non_terminal_running :
  non_terminal (answer (VStr "RUNNING") (VNum 150) VUndefined VUndefined).
Proof.
  exists "RUNNING". repeat split; try reflexivity; discriminate.
Qed.

Lemma scripted_keeps_waiting (n from k : nat) (final : Resp.t) :
  from + k <= n ->
  keeps_waiting
    (scripted n (answer (VStr "RUNNING") (VNum 150) VUndefined VUndefined) final)
    (VStr "t1") from k.
Proof.
  intros Hn i Hi. eexists. split; [|apply non_terminal_running].
  unfold scripted, poll_request. cbn [respond].
  destruct (Nat.ltb_spec (from + i) n); [reflexivity|lia].
Qed.

(** C4, at the failing input.  The backend answers [RUNNING] with progress
    150: the indicator is clamped to 100, and the entry of the task list,
    which is what the page displays, holds 150. *)
Theorem progress_150_reaches_the_task_list :
  exists w',
    AppVue.poll_body (VStr "t1") always_running initial_world
    = (Ret AppVue.Continue, w') /\
    loadingPercent (st w') = 100%float /\
    taskList (st w')
    = [Task.make (VStr "t1") (VNum 150) (VStr "") (VStr "RUNNING")] /\
    PrimFloat.leb 150 100 = false.
Proof.
  eexists. split; [vm_compute; reflexivity|].
  repeat split.
Qed.

Lemma pollGenerateTask_times_out_example :
  exists w',
    AppVue.pollGenerateTask (VStr "t1") always_running initial_world
    = (Throw (Error "任务轮询超时，请稍后重试"), w') /\
    n_http w' = 600 /\
    slept (trace w') = 1200000%N.
Proof.
  destruct (@pollGenerateTask_times_out example_runtime (VStr "t1")
              always_running initial_world)
    as (w' & Hrun & _ & _ & N & S & _).
  - intros i _. eexists. split; [reflexivity|]. right. reflexivity.
  - exists w'. split; [exact Hrun|]. split; [exact N|exact S].
Defined.

Lemma handleGenerate_requires_url_and_prompt_example :
  exists w' text,
    AppVue.handleGenerate always_running initial_world = (Ret tt, w') /\
    trace w' = [EMessage MsgWarning (VStr text)] /\
    n_http w' = 0.
Proof.
  destruct (@handleGenerate_requires_url_and_prompt example_runtime
              always_running initial_world (or_introl eq_refl))
    as (w' & text & Hrun & T & _ & N & _).
  exists w', text. split; [exact Hrun|]. split; [exact T|exact N].
Defined.

Lemma success_is_returned_and_recorded_example :
  let data := answer (VStr "success") (VNum 100) VUndefined (VStr "<p>ok</p>") in
  let env :=
    scripted 3 (answer (VStr "RUNNING") (VNum 150) VUndefined VUndefined) data in
  (exists w',
     AppVue.pollGenerateTask (VStr "t1") env initial_world = (Ret data, w') /\
     n_http w' = 4 /\
     loadingPercent (st w') = 100%float) /\
  (exists w',
     AppVue.handleGenerate env filled_world = (Ret tt, w') /\
     generatedResult (st w')
     = Some {| res_code := VNum 200;
               res_processTime := VNum 2.5;
               res_content := VStr "<p>ok</p>" |}).
Proof.
  intros data env.
  pose proof (@success_is_returned_and_recorded example_runtime) as [Hpoll Hgen].
  split.
  - destruct (Hpoll (VStr "t1") env initial_world 3 data) as (w' & Hrun & _ & N & LP & _).
    + repeat constructor.
    + apply scripted_keeps_waiting. reflexivity.
    + reflexivity.
    + reflexivity.
    + exists w'. split; [exact Hrun|]. split; [exact N|exact LP].
  - destruct (Hgen env filled_world
                   (Resp.make (VStr "t1") VUndefined VUndefined VUndefined
                              VUndefined VUndefined VUndefined VUndefined)
                   2 data)
      as (w' & Hrun & R & _).
    + discriminate.
    + discriminate.
    + reflexivity.
    + reflexivity.
    + repeat constructor.
    + apply scripted_keeps_waiting. reflexivity.
    + reflexivity.
    + reflexivity.
    + exists w'. split; [exact Hrun|]. rewrite R. reflexivity.
Defined.

Lemma terminal_failure_throws_example :
  let data := answer (VStr "FAILED") (VNum 40) (VStr "download failed") VUndefined in
  let env :=
    scripted 1 (answer (VStr "RUNNING") (VNum 150) VUndefined VUndefined) data in
  exists w',
    AppVue.pollGenerateTask (VStr "t1") env initial_world
    = (Throw (Error "download failed"), w') /\
    taskList (st w')
    = [Task.make (VStr "t1") (VNum 100) (VStr "处理失败") (VStr "FAILED")].
Proof.
  intros data env.
  destruct (@terminal_failure_throws example_runtime (VStr "t1") env
              initial_world 1 data "FAILED")
    as (w' & label & fallback & _ & Hrun & Hdetail & _).
  - repeat constructor.
  - apply scripted_keeps_waiting. reflexivity.
  - reflexivity.
  - reflexivity.
  - left. reflexivity.
  - exists w'. split.
    + apply (Hdetail "download failed"); [reflexivity|discriminate].
    + assert (E : snd (AppVue.pollGenerateTask (VStr "t1") env initial_world) = w')
        by now rewrite Hrun.
      rewrite <- E. vm_compute. reflexivity.
Defined.

Lemma unknown_string_status_waits_and_repolls_example :
  let env :=
    scripted 1 (answer (VStr "queued") VUndefined VUndefined VUndefined)
             Resp.empty in
  exists w',
    AppVue.poll_body (VStr "t1") env initial_world = (Ret AppVue.Continue, w') /\
    trace w' = [EHttp (poll_request (VStr "t1")); ESleep 2000] /\
    AppVue.pollGenerateTask (VStr "t1") env initial_world
    = AppVue.poll_for 599 (VStr "t1") env w'.
Proof.
  intros env.
  destruct (@unknown_string_status_waits_and_repolls example_runtime
              (VStr "t1") env initial_world
              (answer (VStr "queued") VUndefined VUndefined VUndefined)
              "QUEUED" 599)
    as (w' & Hbody & T & _ & _ & Hrun).
  - reflexivity.
  - right. exists "queued". split; reflexivity.
  - discriminate.
  - discriminate.
  - discriminate.
  - discriminate.
  - discriminate.
  - exists w'. split; [exact Hbody|]. split; [exact T|].
    apply Hrun. reflexivity.
Defined.

Lemma upsertTask_preserves_unique_ids_example :
  let listed := Task.make (VStr "t1") (VNum 0) (VStr "任务创建成功") (VStr "PENDING") in
  let w := {| st := set_taskList [listed] initial_state; trace := [];
              n_http := 0; n_clock := 0 |} in
  let patch := AppVue.patch_of (VStr "t1") (VNum 40) (VStr "convert") (VStr "RUNNING") in
  exists w',
    AppVue.upsertTask patch always_running w = (Ret tt, w') /\
    unique_ids (taskList (st w')) /\
    taskList (st w')
    = [Task.make (VStr "t1") (VNum 40) (VStr "convert") (VStr "RUNNING")].
Proof.
  intros listed w patch.
  destruct (@upsertTask_preserves_unique_ids patch always_running w)
    as (w' & Hrun & U & _).
  - apply unique_ids_cons; [intros x []|apply unique_ids_nil].
  - exists w'. split; [exact Hrun|]. split; [exact U|].
    injection Hrun as <-. reflexivity.
Defined.

(* ================================================================= *)
(** ** Closed examples for the further properties *)

(** A backend that creates task [t1] and rejects every poll with a [404]. *)
Definition forgetful : backend :=
  {| respond := fun _ r =>
       match r with
       | PostGenerate _ _ =>
           HttpOk (Resp.make (VStr "t1") VUndefined VUndefined VUndefined
                             VUndefined VUndefined VUndefined VUndefined)
       | _ => HttpErr (VStr "Task not found")
                      "Request failed with status code 404"
       end;
     Date_getTime := fun _ => 0%float;
     performance_now := fun _ => 0%float |}.

(** A backend that rejects everything without an answer (network down). *)
Definition unreachable : backend :=
  {| respond := fun _ _ => HttpErr VUndefined "Network Error";
     Date_getTime := fun _ => 0%float;
     performance_now := fun _ => 0%float |}.

(** A backend whose status is a number. *)
Definition numeric_status : backend :=
  {| respond := fun _ _ =>
       HttpOk (answer (VNum 404) VUndefined VUndefined VUndefined);
     Date_getTime := fun _ => 0%float;
     performance_now := fun _ => 0%float |}.

Definition running : Resp.t :=
  answer (VStr "RUNNING") (VNum 150) VUndefined VUndefined.

(** C9 fails for a status that is not a string.  The backend answers
    [{status: 404}]: the status is none of the five, yet the turn throws a
    [TypeError] right after the request, with no sleep and no further
    poll. *)
Lemma numeric_status_throws_instead_of_waiting :
  let data := answer (VNum 404) VUndefined VUndefined VUndefined in
  respond numeric_status 0 (poll_request (VStr "t1")) = HttpOk data /\
  (forall s, In s ["PENDING"; "RUNNING"; "SUCCESS"; "FAILED"; "CANCELED"] ->
             Resp.status data <> VStr s) /\
  exists w',
    AppVue.poll_body (VStr "t1") numeric_status initial_world
    = (Throw (TypeError "toUpperCase is not a function"), w') /\
    AppVue.pollGenerateTask (VStr "t1") numeric_status initial_world
    = (Throw (TypeError "toUpperCase is not a function"), w') /\
    trace w' = [EHttp (poll_request (VStr "t1"))] /\
    slept (trace w') = 0%N /\
    n_http w' = 1.
Proof.
  split; [reflexivity|]. split; [intros s _; discriminate|].
  eexists. split; [reflexivity|]. split; [vm_compute; reflexivity|].
  repeat split.
Qed.

Lemma rejected_poll_aborts_example :
  exists w',
    AppVue.pollGenerateTask (VStr "t1") forgetful initial_world
    = (Throw (AxiosError (VStr "Task not found")
                         "Request failed with status code 404"), w') /\
    n_http w' = 1 /\
    st w' = initial_state.
Proof.
  destruct (@rejected_poll_aborts example_runtime (VStr "t1") forgetful
              initial_world 0 (VStr "Task not found")
              "Request failed with status code 404")
    as (w' & Hrun & _ & N & _ & S).
  - repeat constructor.
  - intros i Hi. inversion Hi.
  - reflexivity.
  - exists w'. split; [exact Hrun|]. split; [exact N|]. now apply S.
Defined.

Lemma non_string_status_throws_type_error_example :
  AppVue.pollGenerateTask (VStr "t1") numeric_status initial_world
  = (Throw (TypeError "toUpperCase is not a function"),
     {| st := initial_state;
        trace := [EHttp (poll_request (VStr "t1"))];
        n_http := 1; n_clock := 0 |}).
Proof.
  apply (@non_string_status_throws_type_error example_runtime (VStr "t1")
           numeric_status initial_world
           (answer (VNum 404) VUndefined VUndefined VUndefined)).
  - reflexivity.
  - reflexivity.
  - discriminate.
Defined.

Lemma indicator_is_the_clamped_progress_example :
  let shown :=
    loadingPercent
      (st (snd (AppVue.poll_body (VStr "t1") always_running initial_world))) in
  shown = Math_max 0 (Math_min 100 150) /\
  shown = 100%float /\
  PrimFloat.leb 0 shown = true /\ PrimFloat.leb shown 100 = true.
Proof.
  destruct (@indicator_is_the_clamped_progress example_runtime (VStr "t1")
              always_running initial_world running eq_refl "RUNNING" eq_refl)
    as (_ & Hclamp & Hrange).
  cbv zeta. split; [apply Hclamp; discriminate|].
  split; [rewrite (Hclamp ltac:(discriminate)); reflexivity|].
  apply Hrange. reflexivity.
Defined.

Lemma missing_fields_read_as_defaults_example :
  exists w',
    AppVue.poll_body (VStr "t1")
      (scripted 1 (answer (VStr "queued") VUndefined VUndefined VUndefined)
                Resp.empty)
      initial_world
    = (Ret AppVue.Continue, w') /\
    taskList (st w')
    = [Task.make (VStr "t1") (VNum 0) (VStr "") (VStr "QUEUED")] /\
    loadingPercent (st w') = 0%float /\
    loadingStatusText (st w') = VStr "处理中...".
Proof.
  destruct (@missing_fields_read_as_defaults example_runtime (VStr "t1")
              (scripted 1 (answer (VStr "queued") VUndefined VUndefined
                                  VUndefined) Resp.empty)
              initial_world
              (answer (VStr "queued") VUndefined VUndefined VUndefined)
              eq_refl "QUEUED")
    as (w' & i & Hrun & _ & LP & LT).
  - reflexivity.
  - discriminate.
  - discriminate.
  - discriminate.
  - left. reflexivity.
  - reflexivity.
  - exists w'. split; [exact Hrun|]. split; [|split; [exact LP|exact LT]].
    injection Hrun as <-. reflexivity.
Defined.

Definition example_patch : Patch.t :=
  AppVue.patch_of (VStr "t1") (VNum 40) (VStr "convert") (VStr "RUNNING").

Lemma upsertTask_idempotent_example :
  bind (AppVue.upsertTask example_patch)
       (fun _ => AppVue.upsertTask example_patch) always_running initial_world
  = AppVue.upsertTask example_patch always_running initial_world.
Proof.
  apply (@upsertTask_idempotent example_patch always_running initial_world).
  - reflexivity.
  - split; discriminate.
  - split; discriminate.
  - split; discriminate.
Defined.

Lemma upsertTask_then_found_example :
  exists i e,
    findIndex (fun item => strict_eq (Task.taskId item) (VStr "t1"))
              (taskList (st (snd (AppVue.upsertTask example_patch
                                    always_running initial_world))))
    = Some i /\
    nth_error (taskList (st (snd (AppVue.upsertTask example_patch
                                    always_running initial_world)))) i
    = Some e /\
    Task.progress e = VNum 40.
Proof.
  destruct (@upsertTask_then_found example_patch always_running initial_world
              eq_refl)
    as (i & e & F & N & _ & P & _).
  exists i, e. split; [exact F|]. split; [exact N|].
  apply P; [reflexivity|discriminate|discriminate].
Defined.

Lemma handleGenerate_create_rejected_example :
  exists w',
    AppVue.handleGenerate unreachable filled_world = (Ret tt, w') /\
    n_http w' = 1 /\
    generatedResult (st w') = None /\
    loading (st w') = false.
Proof.
  destruct (@handleGenerate_create_rejected example_runtime unreachable
              filled_world VUndefined "Network Error")
    as (w' & Hrun & _ & N & G & _ & _ & L & _).
  - discriminate.
  - discriminate.
  - reflexivity.
  - exists w'. auto.
Defined.

Lemma handleGenerate_missing_taskId_example :
  exists w',
    AppVue.handleGenerate always_running filled_world = (Ret tt, w') /\
    n_http w' = 1 /\
    taskList (st w') = [].
Proof.
  destruct (@handleGenerate_missing_taskId example_runtime always_running
              filled_world running)
    as (w' & Hrun & _ & _ & _ & TL & _).
  - discriminate.
  - discriminate.
  - reflexivity.
  - reflexivity.
  - exists w'. split; [exact Hrun|]. split; [|exact TL].
    injection Hrun as <-. reflexivity.
Defined.

Lemma handleGenerate_reports_failure_example :
  let data := answer (VStr "FAILED") (VNum 40) (VStr "download failed") VUndefined in
  exists w' t,
    AppVue.handleGenerate (scripted 2 running data) filled_world = (Ret tt, w') /\
    trace w' = t ++ [EMessage MsgError (VStr "download failed");
                     EConsoleError (Error "download failed")] /\
    generatedResult (st w') = None.
Proof.
  intros data.
  destruct (@handleGenerate_reports_failure example_runtime
              (scripted 2 running data) filled_world
              (Resp.make (VStr "t1") VUndefined VUndefined VUndefined
                         VUndefined VUndefined VUndefined VUndefined)
              data 1 "FAILED")
    as (w' & t & shown & label & fallback & _ & Hrun & T & Hshown & _ & _ & G & _).
  - discriminate.
  - discriminate.
  - reflexivity.
  - reflexivity.
  - repeat constructor.
  - apply scripted_keeps_waiting. reflexivity.
  - reflexivity.
  - reflexivity.
  - left. reflexivity.
  - exists w', t. split; [exact Hrun|]. split; [|exact G].
    rewrite T, (Hshown "download failed" eq_refl); [reflexivity|discriminate].
Defined.

Lemma handleGenerate_reports_timeout_example :
  exists w' t,
    AppVue.handleGenerate (scripted 0 running running) filled_world
    = (Ret tt, w') /\
    trace w' = t ++ [EMessage MsgError (VStr "任务轮询超时，请稍后重试");
                     EConsoleError (Error "任务轮询超时，请稍后重试")] /\
    slept (trace w') = 1200000%N.
Proof.
  destruct (@handleGenerate_reports_timeout example_runtime
              (scripted 0 running running) filled_world
              (Resp.make (VStr "t1") VUndefined VUndefined VUndefined
                         VUndefined VUndefined VUndefined VUndefined))
    as (w' & t & Hrun & T & _ & S & _).
  - discriminate.
  - discriminate.
  - reflexivity.
  - reflexivity.
  - intros i _. exists running. split; [reflexivity|]. right. reflexivity.
  - exists w', t. split; [exact Hrun|]. split; [exact T|exact S].
Defined.

Lemma cancel_after_generate_does_nothing_example :
  bind AppVue.handleGenerate (fun _ => AppVue.handleCancel)
       unreachable filled_world
  = AppVue.handleGenerate unreachable filled_world.
Proof.
  apply (@cancel_after_generate_does_nothing example_runtime unreachable
           filled_world); discriminate.
Defined.
